(** * Verification of the example ingestion pipeline

    A shallow embedding of [pipelines/example/pipeline.py]: the five pipeline
    components ([convert_document], [generate_plan], [chunk_text],
    [embed_and_store], [test_query]) and the pipeline function
    [ingest_pipeline].

    - JSON values, as [response.json()] and [json.load] produce them, are the
      inductive type [json].  Python [float]s are kept abstract: a carrier
      with the operations this program applies to a float ([PyFloat]).
    - Exceptions are the type [exn]; a computation ends in an [outcome].
    - HTTP requests, the clock and [time.sleep] are effects on a [state]
      (the clock and the requests sent so far); what the services answer and
      how long they take is given by a [world].  Clock readings are exact
      rationals, in seconds: the rounding of Python's float clock is not
      modelled.
    - The pipeline function is the list of its statements, run on the task
      graph under construction: a component call creates a task, and an
      output of a task is looked up under its name, which raises [KeyError]
      when the task has no such output.  A task graph is executed by the
      rule of Kubeflow Pipelines: a task starts when the tasks it depends on
      have succeeded. *)

From Stdlib Require Import ZArith QArith List String Ascii Bool Arith Lia Lqa.
From Stdlib Require Import DecimalString.
Import ListNotations.

Local Close Scope Q_scope.
Local Open Scope list_scope.
Local Open Scope string_scope.

Set Warnings "-register-all,-abstract-large-number".

(** ** Python exceptions and outcomes *)

(** The exception classes this program can raise.  [RuntimeError] carries its
    message: the two errors of the polling loop are told apart by it.
    [UnboundLocalError] is what reading a local variable before its
    assignment raises. *)
Inductive exn : Type :=
| TransportError
| HTTPStatusError
| JSONDecodeError
| KeyError
| TypeError
| AttributeError
| ValueError
| OverflowError
| RuntimeError (msg : string)
| UnboundLocalError.

(** How a computation ends.  [Unfinished] is the model's own: a loop whose
    iteration allowance ran out; the polling loop never gets there (see
    [poll_loop_ends]). *)
Inductive outcome (A : Type) : Type :=
| Returned (a : A)
| Raised (e : exn)
| Unfinished.

Arguments Returned {A} a.
Arguments Raised {A} e.
Arguments Unfinished {A}.

Definition obind {A B : Type} (o : outcome A) (k : A -> outcome B) : outcome B :=
  match o with
  | Returned a => k a
  | Raised e => Raised e
  | Unfinished => Unfinished
  end.

(** ** JSON values *)

(** A parsed JSON document as Python holds it.  [JObj] is a [dict]: its
    entries in insertion order.  [F] is the carrier of Python floats. *)
Inductive json (F : Type) : Type :=
| JNull
| JBool (b : bool)
| JInt (z : Z)
| JFloat (f : F)
| JStr (s : string)
| JList (l : list (json F))
| JObj (kv : list (string * json F)).

Arguments JNull {F}.
Arguments JBool {F} b.
Arguments JInt {F} z.
Arguments JFloat {F} f.
Arguments JStr {F} s.
Arguments JList {F} l.
Arguments JObj {F} kv.

(** What this program does with a float: tests its truth value, renders it,
    formats it with [.4f] and adds it to a running total. *)
Class PyFloat (F : Type) : Type := {
  float_bool : F -> bool;
  float_repr : F -> string;
  float_format_4f : F -> string;
  float_add : F -> F -> F;
  (* [x + n] and [n + x] for an int [n]; [None]: [n] is too large for a
     float, Python raises OverflowError *)
  float_add_int : F -> Z -> option F
}.

(** JSON documents without floats: the carrier is empty, and so is every
    operation on it. *)
#[export] Instance no_floats : PyFloat Empty_set := {
  float_bool := fun f => match f with end;
  float_repr := fun f => match f with end;
  float_format_4f := fun f => match f with end;
  float_add := fun f _ => match f with end;
  float_add_int := fun f _ => match f with end
}.

(** ** Text helpers *)

Definition str_of_Z (z : Z) : string := NilZero.string_of_int (Z.to_int z).

Definition str_of_nat (n : nat) : string := str_of_Z (Z.of_nat n).

(** [sep.join(parts)] *)
Fixpoint join (sep : string) (parts : list string) : string :=
  match parts with
  | [] => ""
  | [p] => p
  | p :: rest => p ++ sep ++ join sep rest
  end.

Fixpoint contains_char (c : ascii) (s : string) : bool :=
  match s with
  | EmptyString => false
  | String d rest => Ascii.eqb c d || contains_char c rest
  end.

Definition newline : string := String "010"%char "".
Definition single_quote : ascii := "039"%char.
Definition double_quote : ascii := "034"%char.
Definition backslash : ascii := "092"%char.

Definition hex_digit (n : N) : ascii :=
  match get (N.to_nat n) "0123456789abcdef" with
  | Some c => c
  | None => "0"%char
  end.

(** One character of [repr(s)] for a string quoted with [quote].  The
    characters of a [string] are the code points 0..255. *)
Definition repr_char (quote c : ascii) : string :=
  let n := N_of_ascii c in
  if Ascii.eqb c quote || Ascii.eqb c backslash then String backslash (String c "")
  else if N.eqb n 9 then String backslash "t"
  else if N.eqb n 10 then String backslash "n"
  else if N.eqb n 13 then String backslash "r"
  else if N.ltb n 32 || N.eqb n 127 || (N.leb 128 n && N.leb n 160) || N.eqb n 173
  then String backslash (String "x"%char (String (hex_digit (N.div n 16)) (String (hex_digit (N.modulo n 16)) "")))
  else String c "".

(** [repr(s)] of a [str]: single quotes, unless the text has a single quote
    and no double quote. *)
Definition str_repr (s : string) : string :=
  let quote :=
    if contains_char single_quote s && negb (contains_char double_quote s)
    then double_quote else single_quote in
  String quote (concat "" (map (repr_char quote) (list_ascii_of_string s)) ++ String quote "").

(** ** Python built-ins on JSON values *)

Section Builtins.

Context {F : Type} `{PyFloat F}.

(** [bool(v)], as [or], [not] and [if] use it. *)
Definition truthy (v : json F) : bool :=
  match v with
  | JNull => false
  | JBool b => b
  | JInt z => negb (Z.eqb z 0)
  | JFloat f => float_bool f
  | JStr s => negb (String.eqb s "")
  | JList l => match l with [] => false | _ => true end
  | JObj kv => match kv with [] => false | _ => true end
  end.

(** [a or b] *)
Definition py_or (a b : json F) : json F := if truthy a then a else b.

Definition is_dict (v : json F) : bool :=
  match v with JObj _ => true | _ => false end.

(** [v == text] for a [str] literal [text]: values of another type are
    unequal to it. *)
Definition eq_str (v : json F) (text : string) : bool :=
  match v with
  | JStr s => String.eqb s text
  | _ => false
  end.

(** [repr(v)] *)
Fixpoint py_repr (v : json F) : string :=
  match v with
  | JNull => "None"
  | JBool b => if b then "True" else "False"
  | JInt z => str_of_Z z
  | JFloat f => float_repr f
  | JStr s => str_repr s
  | JList l => "[" ++ join ", " (map py_repr l) ++ "]"
  | JObj kv =>
      "{" ++ join ", " (map (fun e => str_repr (fst e) ++ ": " ++ py_repr (snd e)) kv) ++ "}"
  end.

(** [str(v)], also what an f-string field [{v}] renders. *)
Definition py_str (v : json F) : string :=
  match v with
  | JStr s => s
  | _ => py_repr v
  end.

(** Entry of key [key] in a dict's entries. *)
Fixpoint lookup (key : string) (kv : list (string * json F)) : option (json F) :=
  match kv with
  | [] => None
  | (k, v) :: rest => if String.eqb k key then Some v else lookup key rest
  end.

(** [key in d] for a dict with entries [kv]. *)
Definition has_key (key : string) (kv : list (string * json F)) : bool :=
  match lookup key kv with
  | Some _ => true
  | None => false
  end.

(** [d.get(key, default)]; only a dict has the method. *)
Definition dict_get (d : json F) (key : string) (default : json F) : outcome (json F) :=
  match d with
  | JObj kv =>
      match lookup key kv with
      | Some v => Returned v
      | None => Returned default
      end
  | _ => Raised AttributeError
  end.

(** [d[key]] *)
Definition py_getitem (d : json F) (key : string) : outcome (json F) :=
  match d with
  | JObj kv =>
      match lookup key kv with
      | Some v => Returned v
      | None => Raised KeyError
      end
  | _ => Raised TypeError
  end.

(** [len(v)] *)
Definition py_len (v : json F) : outcome nat :=
  match v with
  | JStr s => Returned (String.length s)
  | JList l => Returned (List.length l)
  | JObj kv => Returned (List.length kv)
  | _ => Raised TypeError
  end.

(** The items [for x in v] goes through: the elements of a list, the keys of
    a dict, the characters of a str. *)
Definition py_iter (v : json F) : outcome (list (json F)) :=
  match v with
  | JList l => Returned l
  | JObj kv => Returned (map (fun e => JStr (fst e)) kv)
  | JStr s => Returned (map (fun c => JStr (String c "")) (list_ascii_of_string s))
  | _ => Raised TypeError
  end.

(** [v[:n]] *)
Definition py_slice_to (n : nat) (v : json F) : outcome (json F) :=
  match v with
  | JStr s => Returned (JStr (substring 0 n s))
  | JList l => Returned (JList (firstn n l))
  | _ => Raised TypeError
  end.

(** [total + x] for a numeric running total. *)
Definition py_add (total x : json F) : outcome (json F) :=
  let int_of (v : json F) : option Z :=
    match v with
    | JInt z => Some z
    | JBool b => Some (if b then 1 else 0)%Z
    | _ => None
    end in
  let float_plus_int (f : F) (z : Z) : outcome (json F) :=
    match float_add_int f z with
    | Some g => Returned (JFloat g)
    | None => Raised OverflowError
    end in
  match total, x with
  | JFloat f, JFloat g => Returned (JFloat (float_add f g))
  | JFloat f, _ =>
      match int_of x with
      | Some z => float_plus_int f z
      | None => Raised TypeError
      end
  | _, JFloat g =>
      match int_of total with
      | Some z => float_plus_int g z
      | None => Raised TypeError
      end
  | _, _ =>
      match int_of total, int_of x with
      | Some a, Some b => Returned (JInt (a + b))
      | _, _ => Raised TypeError
      end
  end.

(** [float(z)] for an int: the nearest float, ties to even, as an exact
    integer; [None] when it is out of the range of a float. *)
Definition nearest_float_of_int (z : Z) : option Z :=
  let a := Z.abs z in
  let bits := if Z.eqb a 0 then 0%Z else (Z.log2 a + 1)%Z in
  if Z.leb bits 53 then Some z
  else
    let shift := (bits - 53)%Z in
    let q := Z.shiftr a shift in
    let r := Z.land a (Z.ones shift) in
    let half := Z.shiftl 1 (shift - 1) in
    let up := Z.ltb half r || (Z.eqb half r && Z.odd q) in
    let m := Z.shiftl (if up then q + 1 else q)%Z shift in
    if Z.leb (Z.shiftl 1 1024) m then None
    else Some (Z.sgn z * m)%Z.

(** [format(score, ".4f")], the field [{score:.4f}] of an f-string. *)
Definition format_4f (score : json F) : outcome string :=
  let of_int (z : Z) : outcome string :=
    match nearest_float_of_int z with
    | Some m => Returned (str_of_Z m ++ ".0000")
    | None => Raised OverflowError
    end in
  match score with
  | JInt z => of_int z
  | JBool b => of_int (if b then 1 else 0)%Z
  | JFloat f => Returned (float_format_4f f)
  | JStr _ => Raised ValueError
  | _ => Raised TypeError
  end.

End Builtins.

(** ** Effects: HTTP, the clock, the output artifact *)

(** An HTTP response: whether its status is a success ([raise_for_status]
    passes), its body ([.content], [.text]) and the value [.json()] parses
    from it ([None]: the body is not JSON). *)
Record response (F : Type) : Type := {
  is_success : bool;
  content : string;
  json_body : option (json F)
}.

Arguments is_success {F} r.
Arguments content {F} r.
Arguments json_body {F} r.

(** What comes back for a request: a response, or none (connection refused,
    timeout): httpx raises a transport error. *)
Inductive reply (F : Type) : Type :=
| NoResponse
| Response (r : response F).

Arguments NoResponse {F}.
Arguments Response {F} r.

(** The surroundings of one component run.  Requests are numbered from 0 in
    the order the component sends them: [answer k] is what comes back for
    request [k] and [latency k] the seconds it takes; [oversleep k] is by how
    many seconds a [time.sleep] that follows request [k - 1] overruns. *)
Record world (F : Type) : Type := {
  answer : nat -> reply F;
  latency : nat -> Q;
  oversleep : nat -> Q
}.

Arguments answer {F} w k.
Arguments latency {F} w k.
Arguments oversleep {F} w k.

Inductive request (F : Type) : Type :=
| GET (url : string)
| POST_files (url : string) (file_name : string) (file_content : string)
    (data : list (string * string))
| POST_json (url : string) (payload : json F).

Arguments GET {F} url.
Arguments POST_files {F} url file_name file_content data.
Arguments POST_json {F} url payload.

(** The state a component run threads: the clock ([time.time()], seconds),
    the requests sent so far, oldest first, and what the output artifact
    holds ([None]: not opened). *)
Record state (F : Type) : Type := {
  clock : Q;
  sent : list (request F);
  artifact : option (json F)
}.

Arguments clock {F} s.
Arguments sent {F} s.
Arguments artifact {F} s.

Definition M (F A : Type) : Type := state F -> outcome A * state F.

Definition ret {F A : Type} (a : A) : M F A := fun s => (Returned a, s).

Definition raise {F A : Type} (e : exn) : M F A := fun s => (Raised e, s).

Definition bind {F A B : Type} (m : M F A) (k : A -> M F B) : M F B :=
  fun s =>
    match m s with
    | (Returned a, s') => k a s'
    | (Raised e, s') => (Raised e, s')
    | (Unfinished, s') => (Unfinished, s')
    end.

Definition lift {F A : Type} (o : outcome A) : M F A := fun s => (o, s).

Notation "x <- m ;; k" := (bind m (fun x => k))
  (at level 61, m at next level, right associativity).
Notation "m ;;; k" := (bind m (fun _ => k))
  (at level 61, right associativity).

Definition initial_state {F : Type} (t0 : Q) : state F :=
  {| clock := t0; sent := []; artifact := None |}.

Section Effects.

Context {F : Type} `{PyFloat F}.
Variable w : world F.

(** Sending a request: it is recorded, the clock advances by the request's
    latency, and the world's answer comes back or a transport error is
    raised. *)
Definition httpx_request (r : request F) : M F (response F) :=
  fun s =>
    let k := List.length (sent s) in
    let s' := {| clock := (clock s + latency w k)%Q;
                 sent := (sent s ++ [r])%list;
                 artifact := artifact s |} in
    match answer w k with
    | NoResponse => (Raised TransportError, s')
    | Response resp => (Returned resp, s')
    end.

Definition raise_for_status (resp : response F) : M F unit :=
  if is_success resp then ret tt else raise HTTPStatusError.

(** [resp.json()] *)
Definition response_json (resp : response F) : M F (json F) :=
  match json_body resp with
  | Some v => ret v
  | None => raise JSONDecodeError
  end.

(** [time.time()] *)
Definition time_time : M F Q := fun s => (Returned (clock s), s).

(** [time.sleep(secs)]: at least [secs] seconds pass. *)
Definition time_sleep (secs : Q) : M F unit :=
  fun s =>
    (Returned tt,
     {| clock := (clock s + secs + oversleep w (List.length (sent s)))%Q;
        sent := sent s;
        artifact := artifact s |}).

(** [open(path, "w")]: the artifact is created empty. *)
Definition open_w : M F unit :=
  fun s => (Returned tt, {| clock := clock s; sent := sent s; artifact := Some (JStr "") |}).

(** [f.write(v)]: text only. *)
Definition file_write (v : json F) : M F unit :=
  match v with
  | JStr _ =>
      fun s => (Returned tt, {| clock := clock s; sent := sent s; artifact := Some v |})
  | _ => raise TypeError
  end.

(** [json.dump(v, f, indent=2)]; the artifact is kept as the value it
    parses back to. *)
Definition json_dump (v : json F) : M F unit :=
  fun s => (Returned tt, {| clock := clock s; sent := sent s; artifact := Some v |}).

End Effects.

(** ** Component 1: [convert_document] *)

Definition Qlt_bool (x y : Q) : bool := negb (Qle_bool y x).

(** [max_wait = 300  # 5 minutes] *)
Definition max_wait : Q := 300.

(** The argument of [time.sleep(5)]. *)
Definition poll_interval : Q := 5.

(** Iterations the model allows the polling loop: every iteration sleeps
    [poll_interval] seconds or more, so the 61st test of the loop condition
    fails at the latest (see [poll_loop_ends]). *)
Definition poll_allowance : nat := 61.

Definition conversion_failed (status_text : string) : exn :=
  RuntimeError ("Docling conversion failed: " ++ status_text).

Definition conversion_timed_out : exn :=
  RuntimeError "Docling conversion timed out".

Section ConvertDocument.

Context {F : Type} `{PyFloat F}.
Variable w : world F.

Definition status_url (docling_url : string) (task_id : json F) : string :=
  docling_url ++ "/v1/status/poll/" ++ py_str task_id.

Definition result_url (docling_url : string) (task_id : json F) : string :=
  docling_url ++ "/v1/result/" ++ py_str task_id.

(** [# Download PDF] *)
Definition download_pdf (pdf_url : string) : M F string :=
  pdf_response <- httpx_request w (GET pdf_url) ;;
  raise_for_status pdf_response ;;;
  ret (content pdf_response).

(** [# Submit to docling for async conversion] *)
Definition submit_conversion (docling_url pdf_content : string) : M F (json F) :=
  response <- httpx_request w
    (POST_files (docling_url ++ "/v1/convert/file/async") "document.pdf" pdf_content
       [("from_formats", "pdf"); ("to_formats", "md")]) ;;
  raise_for_status response ;;;
  body <- response_json response ;;
  lift (py_getitem body "task_id").

(** [# Poll for completion]: the [while ... else] loop.  An iteration tests
    the elapsed time, asks for the status and, unless the status ends the
    loop, sleeps. *)
Fixpoint poll_loop (allowance : nat) (docling_url : string) (task_id : json F)
    (start : Q) : M F unit :=
  match allowance with
  | O => lift Unfinished
  | S allowance' =>
      now <- time_time ;;
      if Qlt_bool (now - start)%Q max_wait then
        status_response <- httpx_request w (GET (status_url docling_url task_id)) ;;
        body <- response_json status_response ;;
        status <- lift (dict_get body "task_status" (JStr "unknown")) ;;
        if eq_str status "success" then ret tt
        else if eq_str status "failure" then
          raise (conversion_failed (content status_response))
        else
          time_sleep w poll_interval ;;;
          poll_loop allowance' docling_url task_id start
      else raise conversion_timed_out
  end.

Definition poll_for_completion (docling_url : string) (task_id : json F) : M F unit :=
  start <- time_time ;;
  poll_loop poll_allowance docling_url task_id start.

(** [# Get result] *)
Definition get_result (docling_url : string) (task_id : json F) : M F (json F) :=
  result_response <- httpx_request w (GET (result_url docling_url task_id)) ;;
  raise_for_status result_response ;;;
  response_json result_response.

(** [# Extract markdown from result]: the value of [markdown] after the
    [if isinstance(result, dict)] statement. *)
Definition extract_markdown (result : json F) : outcome (json F) :=
  match result with
  | JObj kv =>
      obind (dict_get result "md" JNull) (fun md =>
      obind (dict_get result "markdown" JNull) (fun markdown_ =>
      obind (dict_get result "content" (JStr "")) (fun content_ =>
      let markdown := py_or (py_or md markdown_) content_ in
      if negb (truthy markdown) && has_key "document" kv then
        obind (py_getitem result "document") (fun document =>
        dict_get document "md" (JStr ""))
      else Returned markdown)))
  | _ => Returned (JStr (py_str result))
  end.

(** [# Write output artifact], after the [print] that takes
    [len(markdown)]. *)
Definition write_markdown (markdown : json F) : M F unit :=
  lift (py_len markdown) ;;;
  open_w ;;;
  file_write markdown.

(** From [# Poll for completion] to [result = result_response.json()]. *)
Definition await_result (docling_url : string) (task_id : json F) : M F (json F) :=
  poll_for_completion docling_url task_id ;;;
  get_result docling_url task_id.

(** From [# Extract markdown from result] to [return markdown]. *)
Definition extract_and_write (result : json F) : M F (json F) :=
  markdown <- lift (extract_markdown result) ;;
  write_markdown markdown ;;;
  ret markdown.

Definition convert_document (pdf_url docling_url : string) : M F (json F) :=
  pdf_content <- download_pdf pdf_url ;;
  task_id <- submit_conversion docling_url pdf_content ;;
  result <- await_result docling_url task_id ;;
  extract_and_write result.

End ConvertDocument.

(** ** Component 2: [generate_plan] *)

(** The 8000 of [markdown_text[:8000]]. *)
Definition sample_limit : nat := 8 * 1000.

Section GeneratePlan.

Context {F : Type} `{PyFloat F}.
Variable w : world F.

(** [markdown_text[:8000] if len(markdown_text) > 8000 else markdown_text] *)
Definition sample_of (markdown_text : string) : string :=
  if Nat.ltb sample_limit (String.length markdown_text)
  then substring 0 sample_limit markdown_text
  else markdown_text.

Definition plan_request (markdown_text plan_url file_name : string) : request F :=
  POST_json (plan_url ++ "/plan")
    (JObj [("text", JStr (sample_of markdown_text));
           ("meta", JObj [("file_name", JStr file_name);
                          ("mime_type", JStr "text/markdown")])]).

Definition generate_plan (markdown_text plan_url file_name : string) : M F (json F) :=
  response <- httpx_request w (plan_request markdown_text plan_url file_name) ;;
  raise_for_status response ;;;
  result <- response_json response ;;
  plan <- lift (dict_get result "plan" (JObj [])) ;;
  lift (dict_get result "model" JNull) ;;;
  lift (dict_get result "latency_ms" JNull) ;;;
  ret plan.

End GeneratePlan.

(** ** Component 3: [chunk_text] *)

Section ChunkText.

Context {F : Type} `{PyFloat F}.
Variable w : world F.

Definition chunk_text (markdown_text : string) (plan : json F)
    (chunker_url file_name : string) : M F nat :=
  response <- httpx_request w
    (POST_json (chunker_url ++ "/chunk")
       (JObj [("text", JStr markdown_text);
              ("plan", plan);
              ("meta", JObj [("file_name", JStr file_name);
                             ("file_path", JStr ("/documents/" ++ file_name))])])) ;;
  raise_for_status response ;;;
  chunks <- response_json response ;;
  n <- lift (py_len chunks) ;;
  open_w ;;;
  json_dump chunks ;;;
  ret n.

End ChunkText.

(** ** Component 4: [embed_and_store] *)

(** [batch_size = 50] *)
Definition batch_size : nat := 50.

(** [l[i:j]] for [0 <= i]: indices past the end are clipped. *)
Definition slice {A : Type} (l : list A) (i j : nat) : list A :=
  firstn (j - i) (skipn i l).

(** The values [range(start, stop, step)] yields for a positive [step],
    produced one by one; [budget] bounds how many. *)
Fixpoint range_from (budget start stop step : nat) : list nat :=
  match budget with
  | O => []
  | S budget' =>
      if Nat.ltb start stop
      then start :: range_from budget' (start + step) stop step
      else []
  end.

(** [range(0, stop, step)]: a zero step is a [ValueError]; otherwise every
    value is below [stop] and the values grow by [step >= 1], so there are
    at most [stop] of them. *)
Definition py_range (stop step : nat) : outcome (list nat) :=
  if Nat.eqb step 0 then Raised ValueError
  else Returned (range_from stop 0 stop step).

Section EmbedAndStore.

Context {F : Type} `{PyFloat F}.
Variable w : world F.

(** The storage-ready document built from one chunk. *)
Definition document_of (chunk : json F) : outcome (json F) :=
  obind (dict_get chunk "chunk_id" JNull) (fun chunk_id =>
  obind (dict_get chunk "text" (JStr "")) (fun text =>
  obind (dict_get chunk "file_name" (JStr "")) (fun file_name =>
  obind (dict_get chunk "chunk_index" (JInt 0)) (fun chunk_index =>
  obind (dict_get chunk "created_at" (JStr "")) (fun created_at =>
  Returned (JObj [("doc_id", chunk_id);
                  ("text", text);
                  ("metadata", JObj [("file_name", file_name);
                                     ("chunk_index", chunk_index);
                                     ("created_at", created_at)])])))))).

(** [# Prepare documents for upsert] *)
Fixpoint prepare_documents (chunks : list (json F)) : outcome (list (json F)) :=
  match chunks with
  | [] => Returned []
  | chunk :: rest =>
      obind (document_of chunk) (fun document =>
      obind (prepare_documents rest) (fun documents =>
      Returned (document :: documents)))
  end.

Definition upsert_request (gateway_url collection : string) (batch : list (json F))
    : request F :=
  POST_json (gateway_url ++ "/upsert")
    (JObj [("documents", JList batch); ("collection", JStr collection)]).

(** The body of the [for i in range(0, len(documents), size)] loop, over
    the values [starts] the range still has to yield. *)
Fixpoint upsert_loop (size : nat) (documents : list (json F))
    (gateway_url collection : string) (starts : list nat)
    (total_inserted : json F) : M F (json F) :=
  match starts with
  | [] => ret total_inserted
  | i :: starts' =>
      let batch := slice documents i (i + size) in
      response <- httpx_request w (upsert_request gateway_url collection batch) ;;
      raise_for_status response ;;;
      result <- response_json response ;;
      inserted <- lift (dict_get result "inserted" (JInt (Z.of_nat (List.length batch)))) ;;
      total_inserted' <- lift (py_add total_inserted inserted) ;;
      upsert_loop size documents gateway_url collection starts' total_inserted'
  end.

(** [# Upsert in batches], for a batch size [size]. *)
Definition upsert_all (size : nat) (documents : list (json F))
    (gateway_url collection : string) : M F (json F) :=
  starts <- lift (py_range (List.length documents) size) ;;
  upsert_loop size documents gateway_url collection starts (JInt 0).

(** [chunks] is what [json.load] reads from the input artifact. *)
Definition embed_and_store (chunks : json F) (gateway_url collection : string)
    : M F (json F) :=
  lift (py_len chunks) ;;;
  items <- lift (py_iter chunks) ;;
  documents <- lift (prepare_documents items) ;;
  upsert_all batch_size documents gateway_url collection.

End EmbedAndStore.

(** ** Component 5: [test_query] *)

Section TestQuery.

Context {F : Type} `{PyFloat F}.
Variable w : world F.

Definition search_request (gateway_url collection query : string) (top_k : Z)
    : request F :=
  POST_json (gateway_url ++ "/search")
    (JObj [("query", JStr query);
           ("collection", JStr collection);
           ("top_k", JInt top_k)]).

(** The three lines one pass of the [for i, hit in enumerate(hits)] loop
    appends to [output_lines]. *)
Definition hit_lines (i : nat) (hit : json F) : outcome (list string) :=
  obind (dict_get hit "score" (JInt 0)) (fun score =>
  obind (dict_get hit "text" (JStr "")) (fun full_text =>
  obind (py_slice_to 200 full_text) (fun text =>
  obind (format_4f score) (fun score_text =>
  Returned [str_of_nat (i + 1) ++ ". [Score: " ++ score_text ++ "]";
            "   " ++ py_str text ++ "...";
            ""])))).

(** The loop, from index [i] on. *)
Fixpoint format_hits (i : nat) (hits : list (json F)) (output_lines : list string)
    : outcome (list string) :=
  match hits with
  | [] => Returned output_lines
  | hit :: rest =>
      obind (hit_lines i hit) (fun lines =>
      format_hits (S i) rest (output_lines ++ lines)%list)
  end.

(** [output_lines] when the loop is over. *)
Definition query_output_lines (result : json F) (query : string)
    : outcome (list string) :=
  obind (dict_get result "hits" (JList [])) (fun hits =>
  obind (py_len hits) (fun n =>
  obind (py_iter hits) (fun items =>
  format_hits 0 items ["Query: " ++ query; "Results: " ++ str_of_nat n; ""]))).

Definition test_query (gateway_url collection query : string) (top_k : Z)
    : M F string :=
  response <- httpx_request w (search_request gateway_url collection query top_k) ;;
  raise_for_status response ;;;
  result <- response_json response ;;
  output_lines <- lift (query_output_lines result query) ;;
  ret (join newline output_lines).

End TestQuery.

(** ** The pipeline: [ingest_pipeline] *)

(** The five components. *)
Inductive component : Type :=
| ConvertDocument
| GeneratePlan
| ChunkText
| EmbedAndStore
| TestQuery.

(** The output artifacts of a component: its [dsl.Output[...]]
    parameters. *)
Definition output_artifacts (c : component) : list string :=
  match c with
  | ConvertDocument => ["output_markdown"]
  | ChunkText => ["output_chunks"]
  | GeneratePlan | EmbedAndStore | TestQuery => []
  end.

(** The keys of [task.outputs] for a task of component [c]: its output
    artifacts under their parameter names, and the value it returns (each of
    the five components returns one) under the name [return_name] that the
    pipelines library gives to a return value. *)
Definition output_keys (return_name : string) (c : component) : list string :=
  (output_artifacts c ++ [return_name])%list.

(** Kubeflow Pipelines names the return value of a component [Output]. *)
Definition kfp_return_name : string := "Output".

(** The local variables of the pipeline function, one per component call. *)
Inductive task : Type :=
| convert_task
| plan_task
| chunk_task
| store_task
| query_task.

(** What a component call is given for one parameter: a pipeline parameter,
    a constant, [producer.outputs[key]] or [producer.output]. *)
Inductive argument : Type :=
| PipelineParam (name : string)
| Constant (value : string)
| OutputsItem (producer : task) (key : string)
| OutputAttr (producer : task).

(** The statements of the pipeline function: [t = c(...)] and
    [t.after(u)]. *)
Inductive statement : Type :=
| Call (t : task) (c : component) (arguments : list (string * argument))
| After (t u : task).

Definition ingest_pipeline_body : list statement :=
  [ Call convert_task ConvertDocument
      [("pdf_url", PipelineParam "pdf_url");
       ("docling_url", PipelineParam "docling_url")];
    Call plan_task GeneratePlan
      [("markdown_text", OutputsItem convert_task "output");
       ("plan_url", PipelineParam "plan_url");
       ("file_name", Constant "document.pdf")];
    Call chunk_task ChunkText
      [("markdown_text", OutputsItem convert_task "output");
       ("plan", OutputAttr plan_task);
       ("chunker_url", PipelineParam "chunker_url");
       ("file_name", Constant "document.pdf")];
    Call store_task EmbedAndStore
      [("chunks_path", OutputsItem chunk_task "output_chunks");
       ("gateway_url", PipelineParam "gateway_url");
       ("collection", PipelineParam "collection")];
    Call query_task TestQuery
      [("gateway_url", PipelineParam "gateway_url");
       ("collection", PipelineParam "collection");
       ("query", PipelineParam "test_query_text");
       ("top_k", PipelineParam "top_k")];
    After query_task store_task ].

Definition task_eqb (a b : task) : bool :=
  match a, b with
  | convert_task, convert_task
  | plan_task, plan_task
  | chunk_task, chunk_task
  | store_task, store_task
  | query_task, query_task => true
  | _, _ => false
  end.

(** A task of the graph under construction: the component it runs, the task
    outputs it was given as arguments, and the tasks named in [.after(...)]
    calls on it. *)
Record node : Type := {
  runs : component;
  consumes : list (task * string);
  after : list task
}.

(** The tasks created so far, in the order of their creation, under the
    variables they are assigned to (each variable is assigned once). *)
Definition graph : Type := list (task * node).

Fixpoint find_task (t : task) (g : graph) : option node :=
  match g with
  | [] => None
  | (u, n) :: rest => if task_eqb u t then Some n else find_task t rest
  end.

(** Reading the variable [t]. *)
Definition variable (g : graph) (t : task) : outcome node :=
  match find_task t g with
  | Some n => Returned n
  | None => Raised UnboundLocalError
  end.

(** The task outputs an argument stands for.  [producer.outputs[key]] raises
    [KeyError] when the producer has no output of that name;
    [producer.output] is the output of a task that has exactly one. *)
Definition resolve (return_name : string) (g : graph) (a : argument)
  : outcome (list (task * string)) :=
  match a with
  | PipelineParam _ | Constant _ => Returned []
  | OutputsItem producer key =>
      obind (variable g producer) (fun n =>
        if existsb (String.eqb key) (output_keys return_name (runs n))
        then Returned [(producer, key)]
        else Raised KeyError)
  | OutputAttr producer =>
      obind (variable g producer) (fun n =>
        match output_keys return_name (runs n) with
        | [key] => Returned [(producer, key)]
        | _ => Raised AttributeError
        end)
  end.

(** The arguments of a call are evaluated in the order they are written,
    before the call is made. *)
Fixpoint resolve_all (return_name : string) (g : graph)
    (arguments : list (string * argument)) : outcome (list (task * string)) :=
  match arguments with
  | [] => Returned []
  | (_, a) :: rest =>
      obind (resolve return_name g a) (fun outputs =>
      obind (resolve_all return_name g rest) (fun more =>
      Returned (outputs ++ more)%list))
  end.

(** [t.after(u)] *)
Fixpoint put_after (t u : task) (g : graph) : graph :=
  match g with
  | [] => []
  | (v, n) :: rest =>
      if task_eqb v t
      then (v, {| runs := runs n; consumes := consumes n;
                  after := (after n ++ [u])%list |}) :: rest
      else (v, n) :: put_after t u rest
  end.

(** Running the statements of a pipeline function on the graph [g]: the
    outcome, and the graph as the statements leave it.  A call whose
    arguments evaluate creates its task; the checks the library makes on the
    types of the arguments are not modelled. *)
Fixpoint build (return_name : string) (body : list statement) (g : graph)
  : outcome unit * graph :=
  match body with
  | [] => (Returned tt, g)
  | Call t c arguments :: rest =>
      match resolve_all return_name g arguments with
      | Returned outputs =>
          build return_name rest
            (g ++ [(t, {| runs := c; consumes := outputs; after := [] |})])%list
      | Raised e => (Raised e, g)
      | Unfinished => (Unfinished, g)
      end
  | After t u :: rest =>
      match obind (variable g t) (fun _ => variable g u) with
      | Returned _ => build return_name rest (put_after t u g)
      | Raised e => (Raised e, g)
      | Unfinished => (Unfinished, g)
      end
  end.

(** The pipeline function, as Kubeflow Pipelines runs it to build the
    pipeline: on an empty graph, its parameters being placeholders. *)
Definition ingest_pipeline : outcome unit * graph :=
  build kfp_return_name ingest_pipeline_body [].

(** The arguments of the call assigned to [t] in [body]. *)
Fixpoint call_arguments (t : task) (body : list statement)
  : list (string * argument) :=
  match body with
  | [] => []
  | Call u _ arguments :: rest =>
      if task_eqb u t then arguments else call_arguments t rest
  | After _ _ :: rest => call_arguments t rest
  end.

(** The tasks a list of arguments refers to. *)
Definition referenced_tasks (arguments : list (string * argument)) : list task :=
  flat_map (fun a => match snd a with
                     | OutputsItem producer _ | OutputAttr producer => [producer]
                     | PipelineParam _ | Constant _ => []
                     end) arguments.

(** The tasks [t] waits for in the graph [g]: those it takes an output from
    and those it was put after. *)
Definition dependencies (g : graph) (t : task) : list task :=
  match find_task t g with
  | Some n => (map fst (consumes n) ++ after n)%list
  | None => []
  end.

(** *** Execution of a task graph *)

Inductive task_status : Type :=
| Waiting
| Running
| Succeeded
| Failed.

Definition run_state : Type := task -> task_status.

Definition all_waiting : run_state := fun _ => Waiting.

Definition set_status (r : run_state) (t : task) (st : task_status) : run_state :=
  fun u => if task_eqb u t then st else r u.

(** One step of a run of the graph [g], as Kubeflow Pipelines executes a
    task graph: a waiting task of the graph starts once every task it
    depends on has succeeded; a running task succeeds or fails.  Steps of
    different tasks interleave freely: tasks run concurrently. *)
Inductive run_step (g : graph) : run_state -> run_state -> Prop :=
| step_start (r : run_state) (t : task) :
    find_task t g <> None ->
    r t = Waiting ->
    (forall d, In d (dependencies g t) -> r d = Succeeded) ->
    run_step g r (set_status r t Running)
| step_succeed (r : run_state) (t : task) :
    r t = Running ->
    run_step g r (set_status r t Succeeded)
| step_fail (r : run_state) (t : task) :
    r t = Running ->
    run_step g r (set_status r t Failed).

(** The states a run of the graph [g] can be in. *)
Inductive reachable (g : graph) : run_state -> Prop :=
| reach_init : reachable g all_waiting
| reach_step (r r' : run_state) :
    reachable g r -> run_step g r r' -> reachable g r'.

(** ** Definitions used to state the properties *)


Section PayloadShape.

Context {F : Type}.




End PayloadShape.

(** [ceil (n / b)] for a positive [b] (see [ceil_div_spec]). *)
Definition ceil_div (n b : nat) : nat := (n + b - 1) / b.

(** The consecutive batches of [size] elements a list is cut into, the
    last one with what is left. *)
Definition batches {A : Type} (size : nat) (l : list A) : list (list A) :=
  map (fun q => firstn size (skipn (q * size) l))
      (seq 0 (ceil_div (List.length l) size)).

Section UpsertReplies.

Context {F : Type}.

(** The error a request ends in when it fails: no response at all, or a
    response whose status is not a success. *)
Definition request_error (r : reply F) : option exn :=
  match r with
  | NoResponse => Some TransportError
  | Response resp => if is_success resp then None else Some HTTPStatusError
  end.

(** The gateway wrote a batch: a success response with a JSON object whose
    [inserted], when present, is an integer. *)
Definition acknowledged (r : reply F) : bool :=
  match r with
  | NoResponse => false
  | Response resp =>
      is_success resp &&
      match json_body resp with
      | Some (JObj kv) =>
          match lookup "inserted" kv with
          | None | Some (JInt _) => true
          | Some _ => false
          end
      | _ => false
      end
  end.

End UpsertReplies.

(** The state after request [r] was sent from state [s] in world [w]. *)
Definition after_request {F : Type} (w : world F) (s : state F) (r : request F)
    : state F :=
  {| clock := (clock s + latency w (List.length (sent s)))%Q;
     sent := (sent s ++ [r])%list;
     artifact := artifact s |}.

Section PollReplies.

Context {F : Type}.

(** The status the polling loop reads from the answer to a status request;
    [None] when reading it raises (no response, a body that is not JSON, a
    JSON value that is not an object). *)
Definition poll_status (r : reply F) : option (json F) :=
  match r with
  | NoResponse => None
  | Response resp =>
      match json_body resp with
      | Some body =>
          match dict_get body "task_status" (JStr "unknown") with
          | Returned status => Some status
          | _ => None
          end
      | None => None
      end
  end.

(** The answer carries the status [text]. *)
Definition reports (text : string) (r : reply F) : bool :=
  match poll_status r with
  | Some status => eq_str status text
  | None => false
  end.

(** The answer carries a status other than ["success"] and ["failure"]. *)
Definition inconclusive (r : reply F) : bool :=
  match poll_status r with
  | Some status => negb (eq_str status "success") && negb (eq_str status "failure")
  | None => false
  end.


(** Requests and sleeps take time, never give it back. *)
Definition realistic (w : world F) : Prop :=
  forall k : nat, (0 <= latency w k)%Q /\ (0 <= oversleep w k)%Q.

(** The seconds [k] polls with their sleeps take, when the first of them is
    request number [base]. *)
Fixpoint waited (w : world F) (base k : nat) : Q :=
  match k with
  | O => 0%Q
  | S k' =>
      (latency w base + poll_interval + oversleep w (S base)
       + waited w (S base) k')%Q
  end.

(** The state after one poll with its sleep, and after [k] of them. *)
Definition poll_step (w : world F) (r : request F) (s : state F) : state F :=
  {| clock := (clock s + latency w (List.length (sent s)) + poll_interval
               + oversleep w (S (List.length (sent s))))%Q;
     sent := (sent s ++ [r])%list;
     artifact := artifact s |}.

Fixpoint polled (w : world F) (r : request F) (s : state F) (k : nat) : state F :=
  match k with
  | O => s
  | S k' => polled w r (poll_step w r s) k'
  end.

End PollReplies.

(** ** Example worlds and runs *)

(** A success response with the JSON body [body]. *)
Definition ok_json (body : json Empty_set) : reply Empty_set :=
  Response {| is_success := true; content := ""; json_body := Some body |}.

(** The answer to a status request when the task has status [status]. *)
Definition status_reply (status : string) : reply Empty_set :=
  ok_json (JObj [("task_status", JStr status)]).

(** A gateway that answers every search with the same two hits. *)
Definition two_hits : list (json Empty_set) :=
  [JObj [("score", JInt 1); ("text", JStr "alpha")];
   JObj [("score", JInt 0); ("text", JStr "beta")]].

Definition two_hits_world : world Empty_set :=
  {| answer := fun _ =>
       Response {| is_success := true;
                   content := "";
                   json_body := Some (JObj [("hits", JList two_hits)]) |};
     latency := fun _ => 0%Q;
     oversleep := fun _ => 0%Q |}.

(** A conversion that is pending at two polls and done at the third; every
    request takes one second. *)
Definition third_poll_succeeds : world Empty_set :=
  {| answer := fun k =>
       nth k [status_reply "pending"; status_reply "pending";
              status_reply "success";
              ok_json (JObj [("document", JObj [("md", JStr "hello")])])]
           NoResponse;
     latency := fun _ => 1%Q;
     oversleep := fun _ => 0%Q |}.

(** A conversion that never leaves the pending status, behind a service
    that takes eight seconds to answer a status request. *)
Definition slow_and_pending : world Empty_set :=
  {| answer := fun _ => status_reply "pending";
     latency := fun _ => 8%Q;
     oversleep := fun _ => 0%Q |}.

(** A gateway that writes the first batch and is unavailable from the
    second request on. *)
Definition second_upsert_fails : world Empty_set :=
  {| answer := fun k =>
       match k with
       | O => ok_json (JObj [("inserted", JInt 2)])
       | S _ => Response {| is_success := false; content := "unavailable";
                            json_body := None |}
       end;
     latency := fun _ => 0%Q;
     oversleep := fun _ => 0%Q |}.

(** A gateway that acknowledges every batch without a count. *)
Definition gateway_acknowledges : world Empty_set :=
  {| answer := fun _ => ok_json (JObj []);
     latency := fun _ => 0%Q;
     oversleep := fun _ => 0%Q |}.

(** Five documents. *)
Definition five_documents : list (json Empty_set) :=
  map (fun z => JObj [("doc_id", JInt z)]) [1; 2; 3; 4; 5]%Z.

(** Seven chunks, and a gateway that reports seven documents inserted. *)
Definition seven_chunks : json Empty_set :=
  JList (map (fun z => JObj [("chunk_id", JStr ("c" ++ str_of_Z z));
                             ("text", JStr "text");
                             ("chunk_index", JInt z)])
             [0; 1; 2; 3; 4; 5; 6]%Z).

Definition gateway_inserts_seven : world Empty_set :=
  {| answer := fun _ => ok_json (JObj [("inserted", JInt 7)]);
     latency := fun _ => 0%Q;
     oversleep := fun _ => 0%Q |}.

(** A whole conversion: the download, the submission that gives task
    [t1], then the polls and the result of [third_poll_succeeds]. *)
Definition conversion_succeeds : world Empty_set :=
  {| answer := fun k =>
       match k with
       | 0%nat => Response {| is_success := true; content := "%PDF-1.7";
                              json_body := None |}
       | 1%nat => ok_json (JObj [("task_id", JStr "t1")])
       | S (S k') => answer third_poll_succeeds k'
       end;
     latency := fun _ => 1%Q;
     oversleep := fun _ => 0%Q |}.

(** A conversion that is pending at the first poll and has failed at the
    second. *)
Definition second_poll_fails : world Empty_set :=
  {| answer := fun k =>
       nth k [status_reply "pending";
              Response {| is_success := true;
                          content := "{task_status: failure}";
                          json_body := Some (JObj [("task_status", JStr "failure")]) |}]
           NoResponse;
     latency := fun _ => 1%Q;
     oversleep := fun _ => 0%Q |}.

(** A run in which the plan task is running and the chunk task waits. *)
Definition plan_running : run_state :=
  set_status (set_status (set_status all_waiting convert_task Running)
                convert_task Succeeded) plan_task Running.


(** ** Definitions used to state further properties *)

Section FurtherReplies.

Context {F : Type}.

(** The world [w] with the status of every response replaced: response [k]
    is a success exactly when [flags k] holds. *)
Definition with_success (flags : nat -> bool) (w : world F) : world F :=
  {| answer := fun k =>
       match answer w k with
       | NoResponse => NoResponse
       | Response resp =>
           Response {| is_success := flags k;
                       content := content resp;
                       json_body := json_body resp |}
       end;
     latency := latency w;
     oversleep := oversleep w |}.

(** The error reading the status from an answer raises: no response, a
    body that is not JSON, a JSON value that is not an object. *)
Definition poll_error (r : reply F) : option exn :=
  match r with
  | NoResponse => Some TransportError
  | Response resp =>
      match json_body resp with
      | None => Some JSONDecodeError
      | Some (JObj _) => None
      | Some _ => Some AttributeError
      end
  end.

End FurtherReplies.

(** A conversion that never leaves the pending status; requests take no
    time and sleeps end on time. *)
Definition never_finishes : world Empty_set :=
  {| answer := fun _ => status_reply "pending";
     latency := fun _ => 0%Q;
     oversleep := fun _ => 0%Q |}.

(** A conversion service that answers the second poll with a page that is
    not JSON. *)
Definition second_poll_unreadable : world Empty_set :=
  {| answer := fun k =>
       match k with
       | O => status_reply "pending"
       | S _ => Response {| is_success := false;
                            content := "<html>Bad Gateway</html>";
                            json_body := None |}
       end;
     latency := fun _ => 1%Q;
     oversleep := fun _ => 0%Q |}.

Section FurtherPayloads.

Context {F : Type} `{PyFloat F}.

(** The payload has nothing under [key], or something Python counts as
    false: [None], [False], [0], an empty text, list or mapping. *)
Definition falsy_or_absent (key : string) (kv : list (string * json F)) : bool :=
  match lookup key kv with
  | None => true
  | Some v => negb (truthy v)
  end.

Definition is_text (v : json F) : bool :=
  match v with JStr _ => true | _ => false end.

End FurtherPayloads.

(** A file server that has no such document. *)
Definition pdf_not_found : world Empty_set :=
  {| answer := fun _ =>
       Response {| is_success := false; content := "Not Found";
                   json_body := None |};
     latency := fun _ => 1%Q;
     oversleep := fun _ => 0%Q |}.

(** A conversion service that accepts the document and answers without a
    task id. *)
Definition no_task_id : world Empty_set :=
  {| answer := fun k =>
       match k with
       | O => Response {| is_success := true; content := "%PDF-1.7";
                          json_body := None |}
       | S _ => ok_json (JObj [("status", JStr "queued")])
       end;
     latency := fun _ => 1%Q;
     oversleep := fun _ => 0%Q |}.

Section FurtherCounts.

Context {F : Type}.

(** The count one acknowledged upsert adds to the total: the [inserted] of
    the answer, or the size of the batch when the answer has none. *)
Definition reported_count (r : reply F) (batch_length : nat) : Z :=
  match r with
  | NoResponse => Z.of_nat batch_length
  | Response resp =>
      match json_body resp with
      | Some (JObj kv) =>
          match lookup "inserted" kv with
          | Some (JInt z) => z
          | _ => Z.of_nat batch_length
          end
      | _ => Z.of_nat batch_length
      end
  end.

(** The counts of the batches [batches], the first of them sent as request
    number [base], added up. *)
Fixpoint total_count {A : Type} (w : world F) (base : nat)
    (batches : list (list A)) : Z :=
  match batches with
  | [] => 0%Z
  | batch :: rest =>
      (reported_count (answer w base) (List.length batch)
       + total_count w (S base) rest)%Z
  end.

(** The answer is a success with a JSON object that has no [inserted]. *)
Definition acknowledged_without_count (r : reply F) : bool :=
  match r with
  | NoResponse => false
  | Response resp =>
      is_success resp &&
      match json_body resp with
      | Some (JObj kv) =>
          match lookup "inserted" kv with
          | None => true
          | Some _ => false
          end
      | _ => false
      end
  end.

End FurtherCounts.

(** A plan service that answers with a plan. *)
Definition plan_service_answers : world Empty_set :=
  {| answer := fun _ =>
       ok_json (JObj [("plan", JObj [("strategy", JStr "by_heading")]);
                      ("model", JStr "m")]);
     latency := fun _ => 1%Q;
     oversleep := fun _ => 0%Q |}.

(** A chunker that answers with three chunks. *)
Definition three_chunks : list (json Empty_set) :=
  map (fun z => JObj [("chunk_id", JInt z); ("text", JStr "text")]) [0; 1; 2]%Z.

Definition chunker_answers : world Empty_set :=
  {| answer := fun _ => ok_json (JList three_chunks);
     latency := fun _ => 1%Q;
     oversleep := fun _ => 0%Q |}.

(** A gateway that finds nothing. *)
Definition no_hits_world : world Empty_set :=
  {| answer := fun _ => ok_json (JObj [("hits", JList [])]);
     latency := fun _ => 0%Q;
     oversleep := fun _ => 0%Q |}.

(** A gateway that acknowledges every batch without a count, and four
    documents to store. *)
Definition gateway_without_counts : world Empty_set :=
  {| answer := fun _ => ok_json (JObj [("status", JStr "ok")]);
     latency := fun _ => 0%Q;
     oversleep := fun _ => 0%Q |}.

Definition four_documents : list (json Empty_set) :=
  map (fun z => JObj [("doc_id", JInt z)]) [1; 2; 3; 4]%Z.

(** * Properties *)

(** ** Text and list facts *)

Lemma substring_0_length (n : nat) (s : string) :
  String.length (substring 0 n s) = Nat.min n (String.length s).
Proof.
  revert s; induction n as [|n IH]; intros [|c s]; simpl; auto.
Qed.

Lemma substring_0_prefix (n : nat) (s : string) :
  exists rest, s = substring 0 n s ++ rest.
Proof.
  revert s; induction n as [|n IH]; intros s.
  - exists s. destruct s; reflexivity.
  - destruct s as [|c s]; simpl.
    + exists "". reflexivity.
    + destruct (IH s) as [rest E]. exists rest. congruence.
Qed.

(** ** The sample sent by [generate_plan] *)

Lemma sample_of_spec (text : string) :
  (String.length (sample_of text) <= sample_limit)%nat
  /\ ((sample_limit < String.length text)%nat ->
      String.length (sample_of text) = sample_limit
      /\ exists rest, text = sample_of text ++ rest)
  /\ ((String.length text <= sample_limit)%nat -> sample_of text = text).
Proof.
  unfold sample_of.
  destruct (Nat.ltb_spec sample_limit (String.length text)) as [Hlt|Hle].
  - rewrite substring_0_length. repeat split; try lia.
    apply substring_0_prefix.
  - repeat split; try lia.
Qed.

Section PlanProperties.

Context {F : Type} `{PyFloat F}.
Variable w : world F.

Lemma generate_plan_sent (markdown_text plan_url file_name : string) (s : state F) :
  sent (snd (generate_plan w markdown_text plan_url file_name s))
  = (sent s ++ [plan_request markdown_text plan_url file_name])%list.
Proof.
  unfold generate_plan, bind, httpx_request, raise_for_status, response_json, lift, ret, raise.
  destruct (answer w _) as [|resp]; simpl; [reflexivity|].
  destruct (is_success resp); simpl; [|reflexivity].
  destruct (json_body resp) as [v|]; simpl; [|reflexivity].
  destruct (dict_get v "plan" (JObj [])) as [plan|e|]; simpl; try reflexivity.
  destruct (dict_get v "model" JNull); simpl; try reflexivity.
  destruct (dict_get v "latency_ms" JNull); simpl; try reflexivity.
Qed.

(** C7.  Whatever the input text and whatever the plan service answers,
    [generate_plan] sends one request, and the text in it is the input cut
    to 8000 characters: never longer than 8000; when the input is longer,
    its first 8000 characters exactly; otherwise the input unchanged. *)
Theorem plan_sends_text_cut_to_8000
    (markdown_text plan_url file_name : string) (s : state F) :
  sample_limit = 8000%nat
  /\ exists sample : string,
       sent (snd (generate_plan w markdown_text plan_url file_name s))
       = (sent s ++
          [POST_json (plan_url ++ "/plan")
             (JObj [("text", JStr sample);
                    ("meta", JObj [("file_name", JStr file_name);
                                   ("mime_type", JStr "text/markdown")])])])%list
       /\ (String.length sample <= sample_limit)%nat
       /\ ((sample_limit < String.length markdown_text)%nat ->
           String.length sample = sample_limit
           /\ exists rest, markdown_text = sample ++ rest)
       /\ ((String.length markdown_text <= sample_limit)%nat ->
           sample = markdown_text).
Proof.
  split; [reflexivity|].
  exists (sample_of markdown_text).
  split; [apply generate_plan_sent|].
  apply sample_of_spec.
Qed.

End PlanProperties.

(** A text of 10,000 characters: the first 8,000 are sent. *)
Example plan_sample_of_10000_characters :
  let text := concat "" (repeat "0123456789" 1000) in
  String.length text = 10000%nat
  /\ sample_of text = concat "" (repeat "0123456789" 800).
Proof. vm_compute. split; reflexivity. Qed.

(** ** The text [convert_document] extracts from the result payload *)

Section ExtractProperties.

Context {F : Type} `{PyFloat F}.

Lemma truthy_JStr (s : string) :
  truthy (JStr s : json F) = negb (String.eqb s "").
Proof. reflexivity. Qed.


Lemma extract_and_write_text (result : json F) (text : string) (s : state F) :
  extract_markdown result = Returned (JStr text) ->
  extract_and_write result s
  = (Returned (JStr text),
     {| clock := clock s; sent := sent s; artifact := Some (JStr text) |}).
Proof.
  intros E. unfold extract_and_write, bind, lift. rewrite E. reflexivity.
Qed.


(** C10.  A result payload that is not a mapping is not searched for
    candidate fields: the extracted text is [str(result)], the rendering of
    the whole payload, and extracting and writing it never fails. *)
Theorem non_mapping_payload_is_rendered (result : json F) (s : state F) :
  is_dict result = false ->
  extract_markdown result = Returned (JStr (py_str result))
  /\ extract_and_write result s
     = (Returned (JStr (py_str result)),
        {| clock := clock s; sent := sent s;
           artifact := Some (JStr (py_str result)) |}).
Proof.
  intros Hnd.
  assert (E : extract_markdown result = Returned (JStr (py_str result))).
  { destruct result; try reflexivity. discriminate Hnd. }
  split; [exact E|].
  apply extract_and_write_text, E.
Qed.

End ExtractProperties.

(** The candidates are tried in order: an earlier non-empty field wins over
    a later one, and an empty field is passed over. *)
Example extract_markdown_order :
  extract_markdown
    (JObj [("content", JStr "c"); ("markdown", JStr "m"); ("md", JStr "");
           ("document", JObj [("md", JStr "d")])] : json Empty_set)
  = Returned (JStr "m").
Proof. reflexivity. Qed.



(** A list payload is rendered whole, and the text is not empty; an empty
    mapping, in contrast, gives the empty text, not its rendering. *)
Lemma non_mapping_payload_is_rendered_witness :
  is_dict (JList [JInt 1; JStr "a"] : json Empty_set) = false
  /\ extract_markdown (JList [JInt 1; JStr "a"] : json Empty_set)
     = Returned (JStr "[1, 'a']").
Proof.
  split; [reflexivity|].
  exact (proj1 (non_mapping_payload_is_rendered
                  (JList [JInt 1; JStr "a"]) (initial_state 0) eq_refl)).
Defined.

Example mapping_payload_is_not_rendered :
  py_str (JObj [] : json Empty_set) = "{}"
  /\ extract_markdown (JObj [] : json Empty_set) = Returned (JStr "").
Proof. split; reflexivity. Qed.

(** ** The pipeline function [ingest_pipeline] *)

Lemma task_eqb_eq (a b : task) : task_eqb a b = true <-> a = b.
Proof. destruct a, b; simpl; split; intros E; congruence. Qed.

Lemma set_status_same (r : run_state) (t : task) (st : task_status) :
  set_status r t st t = st.
Proof. unfold set_status. destruct t; reflexivity. Qed.

Lemma set_status_other (r : run_state) (t u : task) (st : task_status) :
  u <> t -> set_status r t st u = r u.
Proof.
  intros Hne. unfold set_status.
  destruct (task_eqb u t) eqn:E; [|reflexivity].
  apply task_eqb_eq in E. contradiction.
Qed.

Lemma task_eq_dec (a b : task) : {a = b} + {a <> b}.
Proof. decide equality. Qed.

(** A step leaves a succeeded task succeeded and never returns a task to
    waiting. *)
Lemma run_step_keeps (g : graph) (r r' : run_state) (u : task) :
  run_step g r r' ->
  (r u = Succeeded -> r' u = Succeeded)
  /\ (r' u <> Waiting -> r u <> Waiting \/
        (r u = Waiting /\ forall d, In d (dependencies g u) -> r d = Succeeded)).
Proof.
  intros Hstep.
  destruct Hstep as [r t Hin Hw Hdeps | r t Hr | r t Hr];
    destruct (task_eq_dec u t) as [->|Hne];
    rewrite ?set_status_same, ?(set_status_other _ _ _ _ Hne);
    split; intros Hu; try congruence; auto.
  all: left; congruence.
Qed.

(** In every state of a run, a task that has started has all the tasks it
    depends on succeeded. *)
Lemma started_after_dependencies (g : graph) (r : run_state) :
  reachable g r ->
  forall t d, r t <> Waiting -> In d (dependencies g t) -> r d = Succeeded.
Proof.
  induction 1 as [|r r' Hreach IH Hstep]; intros t d Hstarted Hin.
  - unfold all_waiting in Hstarted. congruence.
  - destruct (run_step_keeps g r r' t Hstep) as [_ Hback].
    destruct (run_step_keeps g r r' d Hstep) as [Hkeep _].
    apply Hkeep.
    destruct (Hback Hstarted) as [Hs | [_ Hdeps]].
    + exact (IH t d Hs Hin).
    + exact (Hdeps d Hin).
Qed.

(** The pipeline function returns only when return values are named
    [output], and the graph it then leaves is the one it builds under that
    name. *)
Lemma build_returned (return_name : string) (g : graph) :
  build return_name ingest_pipeline_body [] = (Returned tt, g) ->
  return_name = "output"
  /\ g = snd (build "output" ingest_pipeline_body []).
Proof.
  intros Hbuild.
  destruct (String.eqb_spec "output" return_name) as [<-|Hne].
  - split; [reflexivity|]. rewrite Hbuild. reflexivity.
  - exfalso.
    apply String.eqb_neq in Hne.
    unfold ingest_pipeline_body, build in Hbuild.
    unfold resolve_all at 1 in Hbuild.
    change (resolve return_name [] (PipelineParam "pdf_url"))
      with (Returned (@nil (task * string))) in Hbuild.
    cbv beta iota delta [obind resolve app] in Hbuild.
    unfold resolve_all at 1 in Hbuild.
    cbv beta iota delta [obind resolve variable find_task task_eqb runs
                         output_keys output_artifacts app existsb] in Hbuild.
    change (String.eqb "output" "output_markdown") with false in Hbuild.
    rewrite Hne in Hbuild. simpl in Hbuild. discriminate.
Qed.

(** C6, on the code.  The ordering of the query task after the store task
    is written in the pipeline function but never made: called on an empty
    graph, [ingest_pipeline] raises [KeyError] in its second statement, at
    [convert_task.outputs["output"]]: the outputs of a [convert_document]
    task are [output_markdown] and [Output].  Only the convert task has been
    created then; the store task, the query task and the ordering
    [query_task.after(store_task)], the last statement of the function, are
    never reached. *)
Theorem ingest_pipeline_raises_key_error :
  ingest_pipeline
  = (Raised KeyError,
     [(convert_task, {| runs := ConvertDocument; consumes := []; after := [] |})])
  /\ nth_error ingest_pipeline_body 1
     = Some (Call plan_task GeneratePlan
               [("markdown_text", OutputsItem convert_task "output");
                ("plan_url", PipelineParam "plan_url");
                ("file_name", Constant "document.pdf")])
  /\ output_keys kfp_return_name ConvertDocument = ["output_markdown"; "Output"]
  /\ resolve kfp_return_name (snd ingest_pipeline) (OutputsItem convert_task "output")
     = Raised KeyError
  /\ nth_error ingest_pipeline_body 5 = Some (After query_task store_task)
  /\ find_task store_task (snd ingest_pipeline) = None
  /\ find_task query_task (snd ingest_pipeline) = None.
Proof. repeat split. Qed.

(** In a graph where the convert task depends on nothing and the plan task
    on the convert task only, a run reaches the state in which the convert
    task has succeeded and the plan task is running. *)
Lemma plan_running_reachable (g : graph) :
  find_task convert_task g <> None ->
  find_task plan_task g <> None ->
  dependencies g convert_task = [] ->
  dependencies g plan_task = [convert_task] ->
  reachable g plan_running.
Proof.
  intros Hconvert Hplan Hnone Hone.
  unfold plan_running.
  set (r1 := set_status all_waiting convert_task Running).
  set (r2 := set_status r1 convert_task Succeeded).
  apply (reach_step g r2);
    [apply (reach_step g r1); [apply (reach_step g all_waiting)|]|].
  - apply reach_init.
  - apply (step_start g all_waiting convert_task); [assumption|reflexivity|].
    rewrite Hnone. intros d [].
  - apply (step_succeed g r1 convert_task). reflexivity.
  - apply (step_start g r2 plan_task); [assumption|reflexivity|].
    rewrite Hone. intros d [<-|[]]. reflexivity.
Qed.

(** C9, as stated, fails.  The call of [chunk_text] is given
    [plan_task.output] as its [plan] argument: the chunk task is declared to
    depend on the plan task as well as on the convert task.  And the
    pipeline function leaves no graph in which the two could run: it raises
    [KeyError] before it creates either of them. *)
Lemma chunk_depends_on_plan :
  call_arguments chunk_task ingest_pipeline_body
  = [("markdown_text", OutputsItem convert_task "output");
     ("plan", OutputAttr plan_task);
     ("chunker_url", PipelineParam "chunker_url");
     ("file_name", Constant "document.pdf")]
  /\ referenced_tasks (call_arguments chunk_task ingest_pipeline_body)
     = [convert_task; plan_task]
  /\ fst ingest_pipeline = Raised KeyError
  /\ find_task plan_task (snd ingest_pipeline) = None
  /\ find_task chunk_task (snd ingest_pipeline) = None.
Proof. repeat split. Qed.

(** C9, amended.  The call of [generate_plan] refers to the convert task
    only; the call of [chunk_text] refers to the convert task and to the
    plan task.  So in any graph the pipeline function builds, whatever the
    name of a return value, the plan task depends on the convert task only
    and can run as soon as it has succeeded, while the chunk task depends on
    the convert task and on the plan task: it starts only after both have
    succeeded, and never runs while the plan task does. *)
Theorem plan_then_chunk_after_convert :
  referenced_tasks (call_arguments plan_task ingest_pipeline_body) = [convert_task]
  /\ referenced_tasks (call_arguments chunk_task ingest_pipeline_body)
     = [convert_task; plan_task]
  /\ forall (return_name : string) (g : graph),
       build return_name ingest_pipeline_body [] = (Returned tt, g) ->
       dependencies g plan_task = [convert_task]
       /\ dependencies g chunk_task = [convert_task; plan_task]
       /\ (forall r : run_state,
             reachable g r -> r plan_task <> Waiting -> r convert_task = Succeeded)
       /\ (forall r : run_state,
             reachable g r -> r chunk_task <> Waiting ->
             r convert_task = Succeeded /\ r plan_task = Succeeded)
       /\ ~ (exists r : run_state,
               reachable g r /\ r plan_task = Running /\ r chunk_task = Running)
       /\ (exists r : run_state,
             reachable g r /\ r convert_task = Succeeded
             /\ r plan_task = Running /\ r chunk_task = Waiting).
Proof.
  split; [reflexivity|]. split; [reflexivity|].
  intros return_name g Hbuild.
  destruct (build_returned return_name g Hbuild) as [_ ->].
  set (g := snd (build "output" ingest_pipeline_body [])).
  assert (Hplan : dependencies g plan_task = [convert_task]) by reflexivity.
  assert (Hchunk : dependencies g chunk_task = [convert_task; plan_task])
    by reflexivity.
  assert (Hboth : forall r : run_state,
             reachable g r -> r chunk_task <> Waiting ->
             r convert_task = Succeeded /\ r plan_task = Succeeded).
  { intros r Hreach Hstarted.
    split.
    - apply (started_after_dependencies g r Hreach chunk_task convert_task Hstarted).
      rewrite Hchunk. simpl. auto.
    - apply (started_after_dependencies g r Hreach chunk_task plan_task Hstarted).
      rewrite Hchunk. simpl. auto. }
  split; [exact Hplan|]. split; [exact Hchunk|].
  split; [|split; [exact Hboth|split]].
  - intros r Hreach Hstarted.
    apply (started_after_dependencies g r Hreach plan_task convert_task Hstarted).
    rewrite Hplan. simpl. auto.
  - intros [r [Hreach [Hp Hc]]].
    destruct (Hboth r Hreach) as [_ Hs]; congruence.
  - exists plan_running.
    split; [|repeat split].
    apply plan_running_reachable;
      [discriminate | discriminate | reflexivity | exact Hplan].
Qed.

Lemma plan_then_chunk_after_convert_witness :
  build "output" ingest_pipeline_body []
  = (Returned tt, snd (build "output" ingest_pipeline_body []))
  /\ dependencies (snd (build "output" ingest_pipeline_body [])) chunk_task
     = [convert_task; plan_task]
  /\ ~ (exists r : run_state,
          reachable (snd (build "output" ingest_pipeline_body [])) r
          /\ r plan_task = Running /\ r chunk_task = Running).
Proof.
  split; [reflexivity|].
  destruct plan_then_chunk_after_convert as [_ [_ H]].
  destruct (H "output" (snd (build "output" ingest_pipeline_body [])) eq_refl)
    as [_ [Hchunk [_ [_ [Hnever _]]]]].
  split; [exact Hchunk | exact Hnever].
Defined.

(** ** The output of [test_query] *)

Section QueryProperties.

Context {F : Type} `{PyFloat F}.
Variable w : world F.

(** The loop appends, for every hit in turn, the lines of that hit. *)
Lemma format_hits_entries (hits : list (json F)) :
  forall (i : nat) (output_lines : list string),
  (forall j hit, nth_error hits j = Some hit ->
     exists e, hit_lines (i + j) hit = Returned e) ->
  exists entries : list (list string),
    format_hits i hits output_lines = Returned (output_lines ++ List.concat entries)%list
    /\ List.length entries = List.length hits
    /\ (forall j hit, nth_error hits j = Some hit ->
          exists e, nth_error entries j = Some e
                    /\ hit_lines (i + j) hit = Returned e).
Proof.
  induction hits as [|hit rest IH]; intros i output_lines Hall.
  - exists []. simpl. rewrite app_nil_r. repeat split.
    intros [|j] h; discriminate.
  - destruct (Hall 0%nat hit eq_refl) as [e He].
    rewrite Nat.add_0_r in He.
    destruct (IH (S i) (output_lines ++ e)%list) as [entries [Hfmt [Hlen Hnth]]].
    { intros j h Hj. destruct (Hall (S j) h Hj) as [e' He'].
      exists e'. rewrite <- He'. f_equal. lia. }
    exists (e :: entries). simpl. rewrite He. simpl. rewrite Hfmt.
    rewrite <- app_assoc. repeat split.
    + congruence.
    + intros [|j] h Hj; simpl in Hj.
      * injection Hj as <-. exists e. rewrite Nat.add_0_r. auto.
      * destruct (Hnth j h Hj) as [e' [Hn He']].
        exists e'. split; [exact Hn|].
        rewrite <- He'. f_equal. lia.
Qed.

(** A hit with a text and an integer or float score gives a numbered line
    with the score to four decimals, a line with the first 200 characters
    of the text, and an empty line. *)
Lemma hit_lines_scored (i : nat) (kv : list (string * json F)) (score : json F)
    (score_text text : string) :
  lookup "score" kv = Some score ->
  format_4f score = Returned score_text ->
  lookup "text" kv = Some (JStr text) ->
  hit_lines i (JObj kv)
  = Returned [str_of_nat (i + 1) ++ ". [Score: " ++ score_text ++ "]";
              "   " ++ substring 0 200 text ++ "...";
              ""].
Proof.
  intros Hs Hf Ht. unfold hit_lines, dict_get. rewrite Hs, Ht. simpl.
  rewrite Hf. reflexivity.
Qed.

(** C8, amended.  When the gateway answers a search with a list of hits
    that can each be formatted, the output of [test_query] has one scored
    entry for every hit of the response, in the order of the response,
    whatever [top_k] is: the number of entries is the number of hits the
    gateway returned, and it is within [top_k] exactly when the gateway
    returned at most [top_k] hits. *)
Theorem query_result_lists_every_hit
    (gateway_url collection query : string) (top_k : Z) (s : state F)
    (resp : response F) (result : json F) (hits : list (json F)) :
  answer w (List.length (sent s)) = Response resp ->
  is_success resp = true ->
  json_body resp = Some result ->
  dict_get result "hits" (JList []) = Returned (JList hits) ->
  (forall i hit, nth_error hits i = Some hit ->
     exists e, hit_lines i hit = Returned e) ->
  exists entries : list (list string),
    fst (test_query w gateway_url collection query top_k s)
    = Returned
        (join newline
           (List.app ["Query: " ++ query;
                      "Results: " ++ str_of_nat (List.length hits);
                      ""]
                     (List.concat entries)))
    /\ List.length entries = List.length hits
    /\ (forall i hit, nth_error hits i = Some hit ->
          exists e, nth_error entries i = Some e /\ hit_lines i hit = Returned e)
    /\ ((Z.of_nat (List.length entries) <= top_k)%Z
        <-> (Z.of_nat (List.length hits) <= top_k)%Z).
Proof.
  intros Hans Hok Hbody Hhits Hall.
  destruct (format_hits_entries hits 0
              ["Query: " ++ query; "Results: " ++ str_of_nat (List.length hits); ""]
              Hall)
    as [entries [Hfmt [Hlen Hnth]]].
  exists entries. split; [|split; [exact Hlen|split; [exact Hnth|]]].
  - unfold test_query, bind, httpx_request, raise_for_status, response_json,
      lift, ret, query_output_lines.
    rewrite Hans. cbn [fst snd]. rewrite Hok. cbn [fst snd]. rewrite Hbody.
    rewrite Hhits. cbn [obind py_len py_iter]. rewrite Hfmt. reflexivity.
  - rewrite Hlen. tauto.
Qed.

End QueryProperties.

(** C8, as stated, fails: asked for [top_k = 1], [test_query] reports both
    hits of a response that carries two. *)
Lemma query_result_longer_than_top_k :
  let entries := [["1. [Score: 1.0000]"; "   alpha..."; ""];
                  ["2. [Score: 0.0000]"; "   beta..."; ""]] in
  test_query two_hits_world "http://gateway" "docs" "q" 1 (initial_state 0%Q)
  = (Returned (join newline (List.app ["Query: q"; "Results: 2"; ""] (List.concat entries))),
     {| clock := 0%Q;
        sent := [POST_json "http://gateway/search"
                   (JObj [("query", JStr "q"); ("collection", JStr "docs");
                          ("top_k", JInt 1)])];
        artifact := None |})
  /\ (1 < Z.of_nat (List.length entries))%Z.
Proof. split; [vm_compute; reflexivity | reflexivity]. Qed.

(** The same run, by the amended statement: two entries for two hits. *)
Lemma query_result_lists_every_hit_witness :
  exists entries : list (list string),
    fst (test_query two_hits_world "http://gateway" "docs" "q" 1 (initial_state 0%Q))
    = Returned (join newline (List.app ["Query: q"; "Results: 2"; ""] (List.concat entries)))
    /\ List.length entries = 2%nat.
Proof.
  destruct (query_result_lists_every_hit two_hits_world "http://gateway" "docs" "q" 1
              (initial_state 0%Q)
              {| is_success := true; content := "";
                 json_body := Some (JObj [("hits", JList two_hits)]) |}
              (JObj [("hits", JList two_hits)]) two_hits
              eq_refl eq_refl eq_refl eq_refl)
    as [entries [Hout [Hlen _]]].
  - intros [|[|[|i]]] hit Hi; simpl in Hi; try discriminate;
      injection Hi as <-; eexists; reflexivity.
  - exists entries. split; [exact Hout | exact Hlen].
Defined.

(** ** Batches of [embed_and_store] *)

Lemma ceil_div_spec (n b : nat) :
  (0 < b)%nat ->
  (n <= ceil_div n b * b /\ ceil_div n b * b < n + b)%nat.
Proof.
  intros Hb. unfold ceil_div.
  pose proof (Nat.div_mod_eq (n + b - 1) b) as E.
  pose proof (Nat.mod_upper_bound (n + b - 1) b ltac:(lia)) as U.
  nia.
Qed.

Lemma ceil_div_unique (n b m : nat) :
  (n <= m * b)%nat -> (m * b < n + b)%nat -> m = ceil_div n b.
Proof.
  intros Hlo Hhi.
  assert (Hb : (0 < b)%nat) by nia.
  destruct (ceil_div_spec n b Hb) as [Clo Chi].
  nia.
Qed.

Lemma ceil_div_step (a b : nat) :
  (0 < b)%nat -> (0 < a)%nat -> ceil_div a b = S (ceil_div (a - b) b).
Proof.
  intros Hb Ha. symmetry.
  destruct (ceil_div_spec (a - b) b Hb) as [Hlo Hhi].
  apply ceil_div_unique; rewrite Nat.mul_succ_l.
  - lia.
  - destruct (Nat.le_gt_cases b a) as [Hba|Hab]; [lia|].
    assert (E : (a - b = 0)%nat) by lia.
    rewrite E in *.
    assert (ceil_div 0 b = 0%nat) by nia.
    lia.
Qed.

Lemma ceil_div_0 (b : nat) : (0 < b)%nat -> ceil_div 0 b = 0%nat.
Proof.
  intros Hb. symmetry. apply ceil_div_unique; lia.
Qed.

(** The loop variable takes the values [start], [start + step], ... below
    [stop]: as many as [ceil ((stop - start) / step)]. *)
Lemma range_from_spec (budget : nat) :
  forall start stop step : nat,
  (0 < step)%nat -> (stop - start <= budget)%nat ->
  range_from budget start stop step
  = map (fun q => start + q * step)%nat (seq 0 (ceil_div (stop - start) step)).
Proof.
  induction budget as [|budget IH]; intros start stop step Hstep Hb.
  - replace (stop - start)%nat with 0%nat by lia.
    rewrite ceil_div_0 by exact Hstep. reflexivity.
  - cbn [range_from]. destruct (Nat.ltb_spec start stop) as [Hlt|Hge].
    + rewrite (ceil_div_step (stop - start) step) by lia.
      rewrite IH by lia.
      cbn [seq map]. rewrite <- seq_shift, map_map.
      f_equal; [lia|].
      replace (stop - (start + step))%nat with (stop - start - step)%nat by lia.
      apply map_ext. intros q. lia.
    + replace (stop - start)%nat with 0%nat by lia.
      rewrite ceil_div_0 by exact Hstep. reflexivity.
Qed.

Lemma py_range_spec (stop step : nat) :
  (0 < step)%nat ->
  py_range stop step
  = Returned (map (fun q => q * step)%nat (seq 0 (ceil_div stop step))).
Proof.
  intros Hstep. unfold py_range.
  destruct (Nat.eqb_spec step 0) as [->|_]; [lia|].
  rewrite range_from_spec by lia.
  rewrite Nat.sub_0_r. reflexivity.
Qed.

Lemma firstn_add_skipn {A : Type} (a b : nat) (l : list A) :
  firstn (a + b) l = (firstn a l ++ firstn b (skipn a l))%list.
Proof.
  revert l; induction a as [|a IH]; intros l; [reflexivity|].
  destruct l as [|x l]; simpl.
  - rewrite firstn_nil. reflexivity.
  - rewrite IH. reflexivity.
Qed.

Section Batches.

Context {A : Type}.
Variable size : nat.
Hypothesis size_positive : (0 < size)%nat.

Lemma concat_first_batches (l : list A) (m : nat) :
  List.concat (map (fun q => firstn size (skipn (q * size) l)) (seq 0 m))
  = firstn (m * size) l.
Proof.
  induction m as [|m IH]; [reflexivity|].
  rewrite seq_S, map_app, concat_app, IH. cbn [map List.concat Nat.add].
  rewrite app_nil_r.
  replace (S m * size)%nat with (m * size + size)%nat by lia.
  symmetry. apply firstn_add_skipn.
Qed.

Lemma batches_length (l : list A) :
  List.length (batches size l) = ceil_div (List.length l) size.
Proof. unfold batches. rewrite length_map, length_seq. reflexivity. Qed.

Lemma batches_concat (l : list A) : List.concat (batches size l) = l.
Proof.
  unfold batches. rewrite concat_first_batches.
  apply firstn_all2.
  destruct (ceil_div_spec (List.length l) size size_positive). lia.
Qed.

Lemma batches_nth (l : list A) (q : nat) :
  (q < ceil_div (List.length l) size)%nat ->
  nth_error (batches size l) q = Some (firstn size (skipn (q * size) l)).
Proof.
  intros Hq. unfold batches.
  rewrite nth_error_map, nth_error_seq.
  destruct (Nat.ltb_spec q (ceil_div (List.length l) size)); [reflexivity|lia].
Qed.

Lemma batches_sizes (l : list A) (q : nat) (b : list A) :
  nth_error (batches size l) q = Some b ->
  (1 <= List.length b <= size)%nat
  /\ (S q < List.length (batches size l) -> List.length b = size)%nat.
Proof.
  intros Hb.
  assert (Hq : (q < ceil_div (List.length l) size)%nat).
  { rewrite <- batches_length. apply nth_error_Some. congruence. }
  rewrite (batches_nth l q Hq) in Hb. injection Hb as <-.
  rewrite batches_length, length_firstn, length_skipn.
  destruct (ceil_div_spec (List.length l) size size_positive) as [Hlo Hhi].
  split; [|intros Hlast]; nia.
Qed.

End Batches.

Lemma slice_batch {A : Type} (l : list A) (i size : nat) :
  slice l i (i + size) = firstn size (skipn i l).
Proof. unfold slice. f_equal. lia. Qed.

Section UpsertProperties.

Context {F : Type} `{PyFloat F}.
Variable w : world F.
Variable size : nat.
Variable documents : list (json F).
Variables gateway_url collection : string.

Let request_of (batch : list (json F)) : request F :=
  upsert_request gateway_url collection batch.

Let loop := upsert_loop w size documents gateway_url collection.

(** A failed request ends the loop with the request's error. *)
Lemma upsert_loop_failed (i : nat) (rest : list nat) (total : json F)
    (s : state F) (e : exn) :
  request_error (answer w (List.length (sent s))) = Some e ->
  loop (i :: rest) total s
  = (Raised e, after_request w s (request_of (slice documents i (i + size)))).
Proof.
  intros He. unfold request_error in He. unfold loop. cbn [upsert_loop].
  unfold bind, httpx_request, raise_for_status, after_request, request_of.
  destruct (answer w (List.length (sent s))) as [|resp].
  - injection He as <-. reflexivity.
  - destruct (is_success resp); [discriminate|].
    injection He as <-. reflexivity.
Qed.

(** An acknowledged request adds a count to an integer total, and the loop
    goes on with the next batch. *)
Lemma upsert_loop_acknowledged (i : nat) (rest : list nat) (a : Z) (s : state F) :
  acknowledged (answer w (List.length (sent s))) = true ->
  exists z : Z,
    loop (i :: rest) (JInt a) s
    = loop rest (JInt (a + z))
        (after_request w s (request_of (slice documents i (i + size)))).
Proof.
  intros Hack. unfold acknowledged in Hack. unfold loop. cbn [upsert_loop].
  unfold bind, httpx_request, raise_for_status, response_json, lift, ret,
    after_request, request_of, dict_get.
  destruct (answer w (List.length (sent s))) as [|resp]; [discriminate|].
  destruct (is_success resp); [|discriminate].
  destruct (json_body resp) as [[| | | | | |kv]|]; try discriminate.
  cbn [andb] in Hack.
  destruct (lookup "inserted" kv) as [[| |z| | | |]|]; try discriminate.
  - exists z. reflexivity.
  - eexists. reflexivity.
Qed.

(** Whatever the answer, one pass of the loop sends one request, and then
    raises or goes on with the next batch. *)
Lemma upsert_loop_cases (i : nat) (rest : list nat) (total : json F) (s : state F) :
  let s' := after_request w s (request_of (slice documents i (i + size))) in
  (exists e, loop (i :: rest) total s = (Raised e, s'))
  \/ (exists total', loop (i :: rest) total s = loop rest total' s').
Proof.
  unfold loop. cbn [upsert_loop].
  unfold bind, httpx_request, raise_for_status, response_json, lift, ret, raise,
    after_request, request_of.
  destruct (answer w (List.length (sent s))) as [|resp]; [left; eauto|].
  destruct (is_success resp); [|left; eauto].
  destruct (json_body resp) as [result|]; [|left; eauto].
  cbn [fst snd].
  destruct (dict_get result "inserted" _) as [inserted|e|] eqn:Eget;
    [|left; eauto|].
  - destruct (py_add total inserted) as [total'|e|] eqn:Eadd;
      [right; eauto|left; eauto|].
    exfalso. unfold py_add in Eadd.
    repeat match type of Eadd with
    | context [match ?x with _ => _ end] => destruct x; try discriminate
    end.
  - exfalso. unfold dict_get in Eget.
    repeat match type of Eget with
    | context [match ?x with _ => _ end] => destruct x; try discriminate
    end.
Qed.

(** When the loop returns, it has sent one request for every start index,
    in order. *)
Lemma upsert_loop_returned (starts : list nat) :
  forall (total : json F) (s : state F) (v : json F),
  fst (loop starts total s) = Returned v ->
  sent (snd (loop starts total s))
  = (sent s ++ map (fun i => request_of (slice documents i (i + size))) starts)%list.
Proof.
  induction starts as [|i rest IH]; intros total s v Hret.
  - unfold loop. simpl. rewrite app_nil_r. reflexivity.
  - destruct (upsert_loop_cases i rest total s) as [[e E]|[total' E]];
      rewrite E in *.
    + discriminate Hret.
    + rewrite (IH _ _ v Hret). unfold after_request. cbn [sent map].
      rewrite <- app_assoc. reflexivity.
Qed.

Hypothesis size_positive : (0 < size)%nat.

Lemma batch_requests :
  map (fun i => request_of (slice documents i (i + size)))
      (map (fun q => q * size)%nat (seq 0 (ceil_div (List.length documents) size)))
  = map request_of (batches size documents).
Proof.
  unfold batches. rewrite !map_map. apply map_ext.
  intros q. rewrite slice_batch. reflexivity.
Qed.

Lemma upsert_all_returned (s : state F) (total : json F) :
  fst (upsert_all w size documents gateway_url collection s) = Returned total ->
  sent (snd (upsert_all w size documents gateway_url collection s))
  = (sent s ++ map request_of (batches size documents))%list.
Proof.
  unfold upsert_all, bind, lift. rewrite (py_range_spec _ _ size_positive).
  intros Hret. fold loop in Hret |- *.
  rewrite (upsert_loop_returned _ _ _ _ Hret), batch_requests. reflexivity.
Qed.

(** C2.  For a batch size [size > 0], a run of the upsert loop that
    returns has sent one upsert request per batch, in order, for the
    batches [batches size documents]: each request is a POST to
    [gateway_url/upsert] whose body carries the batch as its [documents]
    and the collection.  There are [ceil (N / size)] batches for [N]
    documents, each has at most [size] documents and at least one, every
    batch but the last has exactly [size], and the batches in request
    order, one after the other, are the documents. *)
Theorem upsert_batches_partition_documents (s : state F) (total : json F) :
  fst (upsert_all w size documents gateway_url collection s) = Returned total ->
  sent (snd (upsert_all w size documents gateway_url collection s))
  = (sent s ++ map (fun batch : list (json F) =>
                      POST_json (gateway_url ++ "/upsert")
                        (JObj [("documents", JList batch);
                               ("collection", JStr collection)]))
                   (batches size documents))%list
  /\ List.length (batches size documents) = ceil_div (List.length documents) size
  /\ (List.length documents <= ceil_div (List.length documents) size * size
      /\ ceil_div (List.length documents) size * size
         < List.length documents + size)%nat
  /\ (forall (q : nat) (batch : list (json F)),
        nth_error (batches size documents) q = Some batch ->
        (1 <= List.length batch <= size)%nat
        /\ (S q < List.length (batches size documents) ->
            List.length batch = size)%nat)
  /\ List.concat (batches size documents) = documents.
Proof.
  intros Hret.
  split; [exact (upsert_all_returned s total Hret)|].
  split; [apply batches_length|].
  split; [apply ceil_div_spec, size_positive|].
  split; [|apply batches_concat, size_positive].
  intros q batch Hq. exact (batches_sizes size size_positive documents q batch Hq).
Qed.

(** The loop, when the first [k] requests are acknowledged and the next one
    fails. *)
Lemma upsert_loop_fails_at (k : nat) :
  forall (starts : list nat) (a : Z) (s : state F) (e : exn),
  (k < List.length starts)%nat ->
  (forall j, (j < k)%nat ->
     acknowledged (answer w (List.length (sent s) + j)) = true) ->
  request_error (answer w (List.length (sent s) + k)) = Some e ->
  fst (loop starts (JInt a) s) = Raised e
  /\ sent (snd (loop starts (JInt a) s))
     = (sent s ++ map (fun i => request_of (slice documents i (i + size)))
                      (firstn (S k) starts))%list.
Proof.
  induction k as [|k IH]; intros starts a s e Hk Hack Hfail;
    destruct starts as [|i rest]; simpl in Hk; try lia.
  - rewrite Nat.add_0_r in Hfail.
    rewrite (upsert_loop_failed i rest (JInt a) s e Hfail).
    split; [reflexivity|]. cbn [snd after_request sent firstn map]. reflexivity.
  - destruct (upsert_loop_acknowledged i rest a s) as [z E].
    { rewrite <- (Nat.add_0_r (List.length (sent s))). apply Hack. lia. }
    rewrite E.
    set (s1 := after_request w s (request_of (slice documents i (i + size)))).
    assert (Hlen : List.length (sent s1) = S (List.length (sent s))).
    { unfold s1, after_request. cbn [sent]. rewrite length_app. simpl. lia. }
    destruct (IH rest (a + z)%Z s1 e) as [Hout Hsent].
    + lia.
    + intros j Hj. rewrite Hlen.
      replace (S (List.length (sent s)) + j)%nat
        with (List.length (sent s) + S j)%nat by lia.
      apply Hack. lia.
    + rewrite Hlen.
      replace (S (List.length (sent s)) + k)%nat
        with (List.length (sent s) + S k)%nat by lia.
      exact Hfail.
    + split; [exact Hout|].
      rewrite Hsent. unfold s1, after_request. cbn [sent].
      rewrite <- app_assoc. reflexivity.
Qed.

(** C3.  When the first [k] upsert requests are acknowledged and request
    [k + 1], one of the [ceil (N / size)] the documents need, fails, the
    upsert fails with that request's error; the requests sent are those of
    the first [k + 1] batches and nothing else: no later batch, and nothing
    that undoes the [k] written ones.  The outcome is the error alone, the
    same as when the very first request fails with it. *)
Theorem failed_batch_fails_whole_upsert (s : state F) (k : nat) (e : exn) :
  (k < ceil_div (List.length documents) size)%nat ->
  (forall j, (j < k)%nat ->
     acknowledged (answer w (List.length (sent s) + j)) = true) ->
  request_error (answer w (List.length (sent s) + k)) = Some e ->
  fst (upsert_all w size documents gateway_url collection s) = Raised e
  /\ sent (snd (upsert_all w size documents gateway_url collection s))
     = (sent s ++ map (upsert_request gateway_url collection)
                      (firstn (S k) (batches size documents)))%list
  /\ (forall w' : world F,
        request_error (answer w' (List.length (sent s))) = Some e ->
        fst (upsert_all w' size documents gateway_url collection s) = Raised e).
Proof.
  intros Hk Hack Hfail.
  unfold upsert_all, bind, lift. rewrite (py_range_spec _ _ size_positive).
  fold loop.
  set (starts := map (fun q => (q * size)%nat)
                     (seq 0 (ceil_div (List.length documents) size))).
  assert (Hlen : List.length starts = ceil_div (List.length documents) size).
  { unfold starts. rewrite length_map, length_seq. reflexivity. }
  destruct (upsert_loop_fails_at k starts 0%Z s e) as [Hout Hsent];
    [lia | exact Hack | exact Hfail |].
  split; [exact Hout|]. split.
  - rewrite Hsent. f_equal. rewrite <- firstn_map. unfold starts.
    rewrite batch_requests. rewrite firstn_map. reflexivity.
  - intros w' Hfail'.
    destruct starts as [|i rest] eqn:Es; [simpl in Hlen; lia|].
    cbn [upsert_loop].
    unfold bind, httpx_request, raise_for_status. unfold request_error in Hfail'.
    destruct (answer w' (List.length (sent s))) as [|resp].
    + injection Hfail' as <-. reflexivity.
    + destruct (is_success resp); [discriminate|].
      injection Hfail' as <-. reflexivity.
Qed.

(** When the gateway acknowledges every request, the loop returns. *)
Lemma upsert_loop_all_acknowledged (starts : list nat) :
  forall (a : Z) (s : state F),
  (forall j, (j < List.length starts)%nat ->
     acknowledged (answer w (List.length (sent s) + j)) = true) ->
  exists z : Z, fst (loop starts (JInt a) s) = Returned (JInt z).
Proof.
  induction starts as [|i rest IH]; intros a s Hack.
  - exists a. reflexivity.
  - destruct (upsert_loop_acknowledged i rest a s) as [z E].
    { rewrite <- (Nat.add_0_r (List.length (sent s))). apply Hack. simpl. lia. }
    rewrite E. apply IH.
    intros j Hj. unfold after_request. cbn [sent].
    rewrite length_app. cbn [List.length].
    replace (List.length (sent s) + 1 + j)%nat
      with (List.length (sent s) + S j)%nat by lia.
    apply Hack. simpl. lia.
Qed.

Lemma upsert_all_acknowledged (s : state F) :
  (forall j, (j < ceil_div (List.length documents) size)%nat ->
     acknowledged (answer w (List.length (sent s) + j)) = true) ->
  exists z : Z,
    fst (upsert_all w size documents gateway_url collection s) = Returned (JInt z).
Proof.
  intros Hack.
  unfold upsert_all, bind, lift. rewrite (py_range_spec _ _ size_positive).
  apply upsert_loop_all_acknowledged.
  intros j Hj. apply Hack. rewrite length_map, length_seq in Hj. exact Hj.
Qed.

End UpsertProperties.

Section StoreProperties.

Context {F : Type} `{PyFloat F}.
Variable w : world F.

Lemma prepare_documents_length (chunks : list (json F)) :
  forall documents : list (json F),
  prepare_documents chunks = Returned documents ->
  List.length documents = List.length chunks.
Proof.
  induction chunks as [|chunk rest IH]; intros documents E; simpl in E.
  - injection E as <-. reflexivity.
  - destruct (document_of chunk); try discriminate. simpl in E.
    destruct (prepare_documents rest) as [ds| |]; try discriminate.
    simpl in E. injection E as <-. simpl. f_equal. apply IH. reflexivity.
Qed.

(** [embed_and_store] cuts the documents of its chunks into batches of 50:
    a run that returns has sent one request per batch, and a document for
    every chunk. *)
Lemma embed_and_store_batches_of_50 (chunks : list (json F))
    (gateway_url collection : string) (s : state F) (total : json F) :
  fst (embed_and_store w (JList chunks) gateway_url collection s) = Returned total ->
  exists documents : list (json F),
    prepare_documents chunks = Returned documents
    /\ List.length documents = List.length chunks
    /\ sent (snd (embed_and_store w (JList chunks) gateway_url collection s))
       = (sent s ++ map (upsert_request gateway_url collection)
                        (batches 50 documents))%list.
Proof.
  unfold embed_and_store, bind, lift. cbn [py_len py_iter].
  destruct (prepare_documents chunks) as [documents|e|] eqn:E;
    try discriminate.
  intros Hret. exists documents.
  split; [reflexivity|]. split; [apply prepare_documents_length, E|].
  apply (upsert_all_returned w batch_size documents gateway_url collection
           ltac:(unfold batch_size; lia) s total Hret).
Qed.

End StoreProperties.

(** ** The polling loop of [convert_document] *)

Lemma repeat_snoc {A : Type} (x : A) (k : nat) :
  repeat x (S k) = (repeat x k ++ [x])%list.
Proof.
  induction k as [|k IH]; [reflexivity|].
  simpl in IH |- *. f_equal. exact IH.
Qed.


Lemma Qlt_bool_iff (x y : Q) : Qlt_bool x y = true <-> (x < y)%Q.
Proof.
  unfold Qlt_bool. rewrite negb_true_iff.
  split.
  - intros E. apply Qnot_le_lt. intros Hle.
    apply Qle_bool_iff in Hle. congruence.
  - intros Hlt. destruct (Qle_bool y x) eqn:E; [|reflexivity].
    apply Qle_bool_iff in E. apply Qlt_not_le in Hlt. contradiction.
Qed.

Lemma Qlt_bool_false_iff (x y : Q) : Qlt_bool x y = false <-> (y <= x)%Q.
Proof.
  unfold Qlt_bool. rewrite negb_false_iff. apply Qle_bool_iff.
Qed.

Section PollProperties.

Context {F : Type} `{PyFloat F}.
Variable w : world F.
Variable docling_url : string.
Variable task_id : json F.

Let status_request : request F := GET (status_url docling_url task_id).

Let loop (allowance : nat) (start : Q) : M F unit :=
  poll_loop w allowance docling_url task_id start.

(** *** One pass of the loop *)

Lemma poll_loop_timed_out (n : nat) (start : Q) (s : state F) :
  (max_wait <= clock s - start)%Q ->
  loop (S n) start s = (Raised conversion_timed_out, s).
Proof.
  intros Hlate. unfold loop. cbn [poll_loop]. unfold bind, time_time.
  apply Qlt_bool_false_iff in Hlate. rewrite Hlate. reflexivity.
Qed.

Lemma poll_loop_inconclusive (n : nat) (start : Q) (s : state F) :
  (clock s - start < max_wait)%Q ->
  inconclusive (answer w (List.length (sent s))) = true ->
  loop (S n) start s = loop n start (poll_step w status_request s).
Proof.
  intros Hin Hinc. unfold loop. cbn [poll_loop]. unfold bind at 1, time_time.
  apply Qlt_bool_iff in Hin. rewrite Hin.
  unfold inconclusive, poll_status in Hinc.
  unfold bind, httpx_request, response_json, lift, ret, raise, time_sleep.
  destruct (answer w (List.length (sent s))) as [|resp]; [discriminate|].
  destruct (json_body resp) as [body|]; [|discriminate].
  destruct (dict_get body "task_status" (JStr "unknown")) as [status| |];
    try discriminate.
  apply andb_true_iff in Hinc. destruct Hinc as [Hs Hf].
  apply negb_true_iff in Hs, Hf. rewrite Hs, Hf.
  unfold poll_step, status_request. cbn [clock sent artifact].
  rewrite length_app. cbn [List.length]. rewrite Nat.add_1_r. reflexivity.
Qed.




(** Every pass ends the loop at its test, ends it after the status
    request, or sleeps and goes on; which of the three does not depend on
    how many more passes are allowed. *)
Lemma poll_loop_cases (start : Q) (s : state F) :
  ((max_wait <= clock s - start)%Q
   /\ forall n, loop (S n) start s = (Raised conversion_timed_out, s))
  \/ ((clock s - start < max_wait)%Q
      /\ exists o, o <> Unfinished
         /\ forall n, loop (S n) start s = (o, after_request w s status_request))
  \/ ((clock s - start < max_wait)%Q
      /\ forall n, loop (S n) start s = loop n start (poll_step w status_request s)).
Proof.
  destruct (Qlt_le_dec (clock s - start) max_wait) as [Hin|Hlate].
  2:{ left. split; [exact Hlate|]. intros n. apply poll_loop_timed_out, Hlate. }
  right.
  destruct (inconclusive (answer w (List.length (sent s)))) eqn:Hinc.
  { right. split; [exact Hin|]. intros n.
    apply poll_loop_inconclusive; assumption. }
  left. split; [exact Hin|].
  pose proof Hin as Hb. apply Qlt_bool_iff in Hb.
  unfold inconclusive, poll_status in Hinc.
  assert (Hpass : forall n, loop (S n) start s
            = bind (httpx_request w status_request) (fun status_response =>
              bind (response_json status_response) (fun body =>
              bind (lift (dict_get body "task_status" (JStr "unknown"))) (fun status =>
              if eq_str status "success" then ret tt
              else if eq_str status "failure"
                   then raise (conversion_failed (content status_response))
                   else bind (time_sleep w poll_interval) (fun _ =>
                        loop n start)))) s).
  { intros n. unfold loop. cbn [poll_loop]. unfold bind at 1, time_time.
    rewrite Hb. reflexivity. }
  unfold bind, httpx_request, response_json, lift, ret, raise in Hpass.
  fold (after_request w s status_request) in Hpass.
  destruct (answer w (List.length (sent s))) as [|resp].
  { eexists. split; [|intros n; rewrite Hpass; reflexivity]. discriminate. }
  destruct (json_body resp) as [body|].
  2:{ eexists. split; [|intros n; rewrite Hpass; reflexivity]. discriminate. }
  cbn [fst snd] in Hpass.
  destruct (dict_get body "task_status" (JStr "unknown")) as [status|e|] eqn:Eget.
  - destruct (eq_str status "success").
    { eexists. split; [|intros n; rewrite Hpass; reflexivity]. discriminate. }
    destruct (eq_str status "failure").
    { eexists. split; [|intros n; rewrite Hpass; reflexivity]. discriminate. }
    discriminate Hinc.
  - eexists. split; [|intros n; rewrite Hpass; reflexivity]. discriminate.
  - exfalso. unfold dict_get in Eget.
    repeat match type of Eget with
    | context [match ?x with _ => _ end] => destruct x; try discriminate
    end.
Qed.

(** *** The states the loop goes through *)

Lemma polled_sent (k : nat) :
  forall s : state F,
  sent (polled w status_request s k) = (sent s ++ repeat status_request k)%list.
Proof.
  induction k as [|k IH]; intros s; cbn [polled repeat].
  - rewrite app_nil_r. reflexivity.
  - rewrite IH. unfold poll_step. cbn [sent]. rewrite <- app_assoc. reflexivity.
Qed.

Lemma polled_clock (k : nat) :
  forall s : state F,
  (clock (polled w status_request s k)
   == clock s + waited w (List.length (sent s)) k)%Q.
Proof.
  induction k as [|k IH]; intros s; cbn [polled waited].
  - ring.
  - rewrite IH. unfold poll_step. cbn [clock sent].
    rewrite length_app. cbn [List.length]. rewrite Nat.add_1_r. ring.
Qed.

(** The result request is sent whatever comes back for it. *)
Lemma get_result_sent (s : state F) :
  sent (snd (get_result w docling_url task_id s))
  = (sent s ++ [GET (result_url docling_url task_id)])%list.
Proof.
  unfold get_result, bind, httpx_request, raise_for_status, response_json,
    ret, raise.
  destruct (answer w (List.length (sent s))) as [|resp]; [reflexivity|].
  destruct (is_success resp); [destruct (json_body resp)|]; reflexivity.
Qed.



(** [k] inconclusive polls within the wait budget bring the loop to the
    state [polled s k]. *)
Lemma poll_loop_unroll (k : nat) :
  forall (n : nat) (start : Q) (s : state F),
  (forall j, (j < k)%nat ->
     inconclusive (answer w (List.length (sent s) + j)) = true) ->
  (forall j, (j < k)%nat ->
     (clock (polled w status_request s j) - start < max_wait)%Q) ->
  loop (k + n) start s = loop n start (polled w status_request s k).
Proof.
  induction k as [|k IH]; intros n start s Hinc Hin; [reflexivity|].
  cbn [Nat.add polled].
  rewrite poll_loop_inconclusive.
  - apply IH.
    + intros j Hj. unfold poll_step. cbn [sent].
      rewrite length_app. cbn [List.length].
      replace (List.length (sent s) + 1 + j)%nat
        with (List.length (sent s) + S j)%nat by lia.
      apply Hinc. lia.
    + intros j Hj. apply (Hin (S j)). lia.
  - apply (Hin 0%nat). lia.
  - rewrite <- (Nat.add_0_r (List.length (sent s))). apply Hinc. lia.
Qed.


(** A loop that ends does so whatever more it is allowed. *)
Lemma poll_loop_allowance (n : nat) :
  forall (extra : nat) (start : Q) (s : state F),
  fst (loop n start s) <> Unfinished ->
  loop (n + extra) start s = loop n start s.
Proof.
  induction n as [|n IH]; intros extra start s Hend.
  - unfold loop in Hend. simpl in Hend. congruence.
  - cbn [Nat.add].
    destruct (poll_loop_cases start s)
      as [[_ E] | [[_ [o [_ E]]] | [_ E]]];
      rewrite (E (n + extra)%nat); rewrite (E n) in Hend |- *;
      [reflexivity | reflexivity | apply IH, Hend].
Qed.

Hypothesis world_realistic : realistic w.

Lemma waited_S (base k : nat) :
  waited w base (S k)
  = (latency w base + poll_interval + oversleep w (S base)
     + waited w (S base) k)%Q.
Proof. reflexivity. Qed.

Lemma waited_at_least (k : nat) :
  forall base : nat,
  (inject_Z (Z.of_nat k) * poll_interval <= waited w base k)%Q.
Proof.
  induction k as [|k IH]; intros base.
  - cbn [waited]. change (inject_Z (Z.of_nat 0)) with 0%Q. unfold poll_interval. lra.
  - rewrite waited_S, Nat2Z.inj_succ, <- Z.add_1_r, inject_Z_plus.
    specialize (IH (S base)).
    destruct (world_realistic base), (world_realistic (S base)).
    unfold poll_interval in *. change (inject_Z 1) with 1%Q. lra.
Qed.

Lemma waited_grows (k : nat) :
  forall base : nat, (waited w base k <= waited w base (S k))%Q.
Proof.
  induction k as [|k IH]; intros base.
  - rewrite waited_S. cbn [waited].
    destruct (world_realistic base), (world_realistic (S base)).
    unfold poll_interval. lra.
  - rewrite (waited_S base (S k)), (waited_S base k).
    specialize (IH (S base)). lra.
Qed.

Lemma waited_monotone (base j k : nat) :
  (j <= k)%nat -> (waited w base j <= waited w base k)%Q.
Proof.
  induction 1 as [|k Hle IH]; [apply Qle_refl|].
  pose proof (waited_grows k base). lra.
Qed.

(** After [k] passes with their sleeps at least [k] poll intervals have
    gone by, so the allowance of 61 passes is never used up. *)
Lemma poll_loop_ends (n : nat) :
  forall (k : nat) (start : Q) (s : state F),
  (inject_Z (Z.of_nat k) * poll_interval <= clock s - start)%Q ->
  (1 <= n)%nat -> (poll_allowance <= n + k)%nat ->
  fst (loop n start s) <> Unfinished.
Proof.
  induction n as [|n IH]; intros k start s Hk Hn Hnk; [lia|].
  destruct (poll_loop_cases start s)
    as [[_ E] | [[_ [o [Ho E]]] | [Hin E]]]; rewrite E; cbn [fst];
    try discriminate; try exact Ho.
  assert (Hk60 : (Z.of_nat k < 60)%Z).
  { rewrite Zlt_Qlt. unfold poll_interval, max_wait in *.
    change (inject_Z 60) with 60%Q. lra. }
  unfold poll_allowance in Hnk.
  apply (IH (S k)); [|lia|unfold poll_allowance; lia].
  unfold poll_step. cbn [clock].
  rewrite Nat2Z.inj_succ, <- Z.add_1_r, inject_Z_plus.
  destruct (world_realistic (List.length (sent s))),
           (world_realistic (S (List.length (sent s)))).
  unfold poll_interval in *. change (inject_Z 1) with 1%Q. lra.
Qed.

(** The elapsed time when the loop ends, for status requests that take at
    most [D] seconds and sleeps that overrun by at most [J]. *)
Lemma poll_loop_elapsed (D J : Q) (n : nat) :
  (forall k, latency w k <= D)%Q ->
  (forall k, oversleep w k <= J)%Q ->
  forall (start : Q) (s : state F),
  (clock s - start < max_wait + poll_interval + D + J)%Q ->
  fst (loop n start s) = Unfinished
  \/ (clock (snd (loop n start s)) - start < max_wait + poll_interval + D + J)%Q.
Proof.
  intros HD HJ.
  induction n as [|n IH]; intros start s Hs; [left; reflexivity|].
  destruct (world_realistic (List.length (sent s))) as [Hl0 _].
  destruct (world_realistic (S (List.length (sent s)))) as [_ Ho0].
  pose proof (HD (List.length (sent s))) as Hl.
  pose proof (HJ (S (List.length (sent s)))) as Ho.
  destruct (poll_loop_cases start s)
    as [[_ E] | [[Hin [o [_ E]]] | [Hin E]]]; rewrite E.
  - right. exact Hs.
  - right. unfold after_request. cbn [snd clock].
    unfold poll_interval. lra.
  - apply IH. unfold poll_step. cbn [clock]. lra.
Qed.

(** C5, amended.  Whatever the conversion service answers (requests and
    sleeps taking time, never giving it back), the polling loop ends, with
    any allowance of 61 passes or more; when a status request takes at most
    [D] seconds and a sleep overruns by at most [J], the time elapsed since
    the loop began is then below [max_wait + poll_interval + D + J].  The
    budget is tested only before a poll: the last poll and the sleep after
    it may run past it. *)
Theorem poll_loop_ends_within_budget_and_last_poll (s : state F) (D J : Q) :
  (forall k, latency w k <= D)%Q ->
  (forall k, oversleep w k <= J)%Q ->
  fst (poll_for_completion w docling_url task_id s) <> Unfinished
  /\ (clock (snd (poll_for_completion w docling_url task_id s)) - clock s
      < max_wait + poll_interval + D + J)%Q
  /\ (forall extra : nat,
        poll_loop w (poll_allowance + extra) docling_url task_id (clock s) s
        = poll_for_completion w docling_url task_id s).
Proof.
  intros HD HJ.
  assert (Hrun : poll_for_completion w docling_url task_id s
                 = loop poll_allowance (clock s) s) by reflexivity.
  assert (Hend : fst (loop poll_allowance (clock s) s) <> Unfinished).
  { apply (poll_loop_ends poll_allowance 0%nat).
    - change (inject_Z (Z.of_nat 0)) with 0%Q. lra.
    - unfold poll_allowance. lia.
    - lia. }
  rewrite Hrun. split; [exact Hend|]. split.
  - destruct (poll_loop_elapsed D J poll_allowance HD HJ (clock s) s) as [E|Hlt].
    + destruct (world_realistic 0%nat) as [Hl Ho].
      pose proof (HD 0%nat). pose proof (HJ 0%nat).
      unfold max_wait, poll_interval. lra.
    + contradiction.
    + exact Hlt.
  - intros extra. apply poll_loop_allowance, Hend.
Qed.


End PollProperties.

(** ** The statements at concrete runs *)


(** The polls ["pending"; "failure"]: the run fails after the second poll
    and no result is requested. *)
Example second_failure_ends_the_run :
  await_result second_poll_fails "http://docling" (JStr "t1") (initial_state 0%Q)
  = (Raised (conversion_failed "{task_status: failure}"),
     {| clock := 7%Q;
        sent := [GET "http://docling/v1/status/poll/t1";
                 GET "http://docling/v1/status/poll/t1"];
        artifact := None |}).
Proof. vm_compute. reflexivity. Qed.

(** A whole run of [convert_document]. *)
Example convert_document_run :
  convert_document conversion_succeeds "http://files/a.pdf" "http://docling"
    (initial_state 0%Q)
  = (Returned (JStr "hello"),
     {| clock := 16%Q;
        sent := [GET "http://files/a.pdf";
                 POST_files "http://docling/v1/convert/file/async" "document.pdf"
                   "%PDF-1.7" [("from_formats", "pdf"); ("to_formats", "md")];
                 GET "http://docling/v1/status/poll/t1";
                 GET "http://docling/v1/status/poll/t1";
                 GET "http://docling/v1/status/poll/t1";
                 GET "http://docling/v1/result/t1"];
        artifact := Some (JStr "hello") |}).
Proof. vm_compute. reflexivity. Qed.

(** C5, as stated, fails: with status requests that take eight seconds the
    loop gives up 312 seconds after it began, later than
    [max_wait + poll_interval = 305]. *)
Lemma poll_loop_ends_after_wait_plus_interval :
  poll_for_completion slow_and_pending "http://docling" (JStr "t1")
    (initial_state 0%Q)
  = (Raised conversion_timed_out,
     {| clock := 312%Q;
        sent := repeat (GET "http://docling/v1/status/poll/t1") 24;
        artifact := None |})
  /\ (max_wait + poll_interval < 312 - 0)%Q.
Proof. split; [vm_compute; reflexivity | reflexivity]. Qed.

(** With status requests of eight seconds the loop ends within
    [max_wait + poll_interval + 8] seconds. *)
Lemma poll_loop_ends_within_budget_and_last_poll_witness :
  (clock (snd (poll_for_completion slow_and_pending "http://docling" (JStr "t1")
                 (initial_state 0%Q))) - 0
   < max_wait + poll_interval + 8 + 0)%Q.
Proof.
  assert (Hreal : realistic slow_and_pending).
  { intros k. split; discriminate. }
  assert (HD : forall k : nat, (latency slow_and_pending k <= 8)%Q).
  { intros k. discriminate. }
  assert (HJ : forall k : nat, (oversleep slow_and_pending k <= 0)%Q).
  { intros k. discriminate. }
  exact (proj1 (proj2 (poll_loop_ends_within_budget_and_last_poll slow_and_pending
                         "http://docling" (JStr "t1") Hreal (initial_state 0%Q)
                         8%Q 0%Q HD HJ))).
Defined.

(** Five documents in batches of two: three requests, of two, two and one
    document. *)
Lemma upsert_batches_partition_documents_witness :
  fst (upsert_all gateway_acknowledges 2 five_documents "http://gateway"
         "docs" (initial_state 0%Q))
  = Returned (JInt 5)
  /\ sent (snd (upsert_all gateway_acknowledges 2 five_documents "http://gateway"
                  "docs" (initial_state 0%Q)))
     = [POST_json "http://gateway/upsert"
          (JObj [("documents", JList [JObj [("doc_id", JInt 1)];
                                      JObj [("doc_id", JInt 2)]]);
                 ("collection", JStr "docs")]);
        POST_json "http://gateway/upsert"
          (JObj [("documents", JList [JObj [("doc_id", JInt 3)];
                                      JObj [("doc_id", JInt 4)]]);
                 ("collection", JStr "docs")]);
        POST_json "http://gateway/upsert"
          (JObj [("documents", JList [JObj [("doc_id", JInt 5)]]);
                 ("collection", JStr "docs")])].
Proof.
  split; [reflexivity|].
  exact (proj1 (upsert_batches_partition_documents gateway_acknowledges 2
                  five_documents "http://gateway" "docs" ltac:(lia)
                  (initial_state 0%Q) (JInt 5) eq_refl)).
Defined.

(** Five documents in batches of two, the second request refused: the
    upsert fails with that error after two requests; the third batch is not
    sent. *)
Lemma failed_batch_fails_whole_upsert_witness :
  fst (upsert_all second_upsert_fails 2 five_documents "http://gateway" "docs"
         (initial_state 0%Q))
  = Raised HTTPStatusError
  /\ sent (snd (upsert_all second_upsert_fails 2 five_documents "http://gateway"
                  "docs" (initial_state 0%Q)))
     = map (upsert_request "http://gateway" "docs")
           [[JObj [("doc_id", JInt 1)]; JObj [("doc_id", JInt 2)]];
            [JObj [("doc_id", JInt 3)]; JObj [("doc_id", JInt 4)]]].
Proof.
  assert (Hack : forall j, (j < 1)%nat ->
            acknowledged
              (answer second_upsert_fails
                 (List.length (sent (initial_state (F:=Empty_set) 0%Q)) + j))
            = true).
  { intros [|j] Hj; [reflexivity|lia]. }
  destruct (failed_batch_fails_whole_upsert second_upsert_fails 2 five_documents
              "http://gateway" "docs" ltac:(lia) (initial_state 0%Q) 1
              HTTPStatusError ltac:(vm_compute; lia) Hack eq_refl)
    as [Hout [Hsent _]].
  split; [exact Hout | exact Hsent].
Defined.

(** Seven chunks are stored with one request that carries seven documents,
    and the count the gateway reports is returned. *)
Example seven_chunks_one_batch :
  exists documents : list (json Empty_set),
    embed_and_store gateway_inserts_seven seven_chunks "http://gateway" "docs"
      (initial_state 0%Q)
    = (Returned (JInt 7),
       {| clock := 0%Q;
          sent := [upsert_request "http://gateway" "docs" documents];
          artifact := None |})
    /\ List.length documents = 7%nat.
Proof. eexists. split; [vm_compute; reflexivity | reflexivity]. Qed.

(** * Further properties *)

(** ** More on the polling loop *)

Set Warnings "-notation-for-abbreviation".

Section PollFurther.

Context {F : Type} `{PyFloat F}.
Variable w : world F.
Variable docling_url : string.
Variable task_id : json F.

Local Notation status_request := (GET (status_url docling_url task_id)).

Local Notation loop n start := (poll_loop w n docling_url task_id start).

(** A pass within the budget whose answer is conclusive ends the loop after
    the status request; it returns only for the status ["success"], and it
    raises what reading the status raises. *)
Lemma poll_loop_conclusive (n : nat) (start : Q) (s : state F) :
  (clock s - start < max_wait)%Q ->
  inconclusive (answer w (List.length (sent s))) = false ->
  exists o : outcome unit,
    loop (S n) start s = (o, after_request w s status_request)
    /\ (o = Returned tt ->
        reports "success" (answer w (List.length (sent s))) = true)
    /\ (forall e, poll_error (answer w (List.length (sent s))) = Some e ->
        o = Raised e).
Proof.
  intros Hin Hinc.
  cbn [poll_loop]. unfold bind at 1, time_time.
  apply Qlt_bool_iff in Hin. rewrite Hin.
  unfold inconclusive, reports, poll_status, poll_error in *.
  unfold bind, httpx_request, response_json, lift, ret, raise, after_request.
  destruct (answer w (List.length (sent s))) as [|resp].
  { eexists. split; [reflexivity|]. split; [discriminate|].
    intros e E. injection E as <-. reflexivity. }
  destruct (json_body resp) as [body|].
  2:{ eexists. split; [reflexivity|]. split; [discriminate|].
      intros e E. injection E as <-. reflexivity. }
  cbn [fst snd].
  destruct body; cbn [dict_get] in *;
    try (eexists; split; [reflexivity|]; split; [discriminate|];
         intros e E; injection E as <-; reflexivity).
  destruct (lookup "task_status" kv) as [status|].
  - destruct (eq_str status "success") eqn:Es.
    { eexists. split; [reflexivity|]. split; [reflexivity|discriminate]. }
    destruct (eq_str status "failure") eqn:Ef.
    { eexists. split; [reflexivity|]. split; discriminate. }
    discriminate Hinc.
  - discriminate Hinc.
Qed.

(** The requests of the loop are status requests, one per pass; when the
    loop returns, the last of them was answered with ["success"]. *)
Lemma poll_loop_shape (n : nat) :
  forall (start : Q) (s : state F),
  exists m : nat,
    sent (snd (loop n start s)) = (sent s ++ repeat status_request m)%list
    /\ (fst (loop n start s) = Returned tt ->
        exists m', m = S m'
          /\ reports "success" (answer w (List.length (sent s) + m')) = true).
Proof.
  induction n as [|n IH]; intros start s.
  - exists 0%nat. simpl. rewrite app_nil_r.
    split; [reflexivity|discriminate].
  - destruct (Qlt_le_dec (clock s - start) max_wait) as [Hin|Hlate].
    2:{ exists 0%nat.
        rewrite (poll_loop_timed_out w docling_url task_id n start s Hlate).
        simpl. rewrite app_nil_r. split; [reflexivity|discriminate]. }
    destruct (inconclusive (answer w (List.length (sent s)))) eqn:Hinc.
    + rewrite (poll_loop_inconclusive w docling_url task_id n start s Hin Hinc).
      destruct (IH start (poll_step w status_request s)) as [m [Hsent Hret]].
      exists (S m). split.
      * rewrite Hsent. unfold poll_step. cbn [sent repeat].
        rewrite <- app_assoc. reflexivity.
      * intros E. destruct (Hret E) as [m' [-> Hrep]].
        exists (S m'). split; [reflexivity|].
        unfold poll_step in Hrep. cbn [sent] in Hrep.
        rewrite length_app in Hrep. cbn [List.length] in Hrep.
        replace (List.length (sent s) + S m')%nat
          with (List.length (sent s) + 1 + m')%nat by lia.
        exact Hrep.
    + destruct (poll_loop_conclusive n start s Hin Hinc) as [o [E [Hret _]]].
      exists 1%nat. rewrite E. split; [reflexivity|].
      intros Eo. exists 0%nat. split; [reflexivity|].
      rewrite Nat.add_0_r. apply Hret, Eo.
Qed.

(** X1.  Whatever the services answer, the requests [await_result] sends
    are status requests followed by at most one result request; the result
    is requested only after a poll answered ["success"], and a run that
    requests no result does not return. *)
Theorem result_requested_only_after_success (s : state F) :
  exists m : nat,
    (sent (snd (await_result w docling_url task_id s))
     = (sent s ++ repeat (GET (status_url docling_url task_id)) m)%list
     /\ forall v, fst (await_result w docling_url task_id s) <> Returned v)
    \/ (exists m', m = S m'
        /\ reports "success" (answer w (List.length (sent s) + m')) = true
        /\ sent (snd (await_result w docling_url task_id s))
           = (sent s ++ repeat (GET (status_url docling_url task_id)) m
                     ++ [GET (result_url docling_url task_id)])%list).
Proof.
  destruct (poll_loop_shape poll_allowance (clock s) s) as [m [Hsent Hret]].
  exists m. unfold await_result, bind.
  change (poll_for_completion w docling_url task_id s)
    with (poll_loop w poll_allowance docling_url task_id (clock s) s).
  destruct (loop poll_allowance (clock s) s) as [[[]|e|] s1];
    cbn [fst snd] in *.
  - right. destruct (Hret eq_refl) as [m' [-> Hrep]].
    exists m'. split; [reflexivity|]. split; [exact Hrep|].
    rewrite get_result_sent, Hsent, <- app_assoc. reflexivity.
  - left. split; [exact Hsent|]. discriminate.
  - left. split; [exact Hsent|]. discriminate.
Qed.

(** The polling loop does not look at the status code of a status
    response. *)
Lemma poll_loop_with_success (flags : nat -> bool) (n : nat) :
  forall (start : Q) (s : state F),
  poll_loop (with_success flags w) n docling_url task_id start s
  = poll_loop w n docling_url task_id start s.
Proof.
  induction n as [|n IH]; intros start s; [reflexivity|].
  cbn [poll_loop]. unfold bind, time_time.
  destruct (Qlt_bool (clock s - start) max_wait); [|reflexivity].
  unfold httpx_request, response_json, lift, ret, raise, time_sleep.
  cbn [answer latency oversleep with_success].
  destruct (answer w (List.length (sent s))) as [|resp]; [reflexivity|].
  cbn [json_body content].
  destruct (json_body resp) as [body|]; [|reflexivity].
  destruct (dict_get body "task_status" (JStr "unknown")) as [status|e|];
    try reflexivity.
  destruct (eq_str status "success"); [reflexivity|].
  destruct (eq_str status "failure"); [reflexivity|].
  apply IH.
Qed.

(** X3.  The polling loop reads the status from the body of a status
    response whatever its HTTP status code: changing the codes of the
    responses changes nothing in the loop's run. *)
Theorem poll_ignores_http_status (flags : nat -> bool) (s : state F) :
  poll_for_completion (with_success flags w) docling_url task_id s
  = poll_for_completion w docling_url task_id s.
Proof.
  unfold poll_for_completion, bind, time_time.
  apply poll_loop_with_success.
Qed.

Hypothesis world_realistic : realistic w.

(** After [k] passes the loop sends at most [60 - k] more requests. *)
Lemma poll_loop_requests_bound (n : nat) :
  forall (k : nat) (start : Q) (s : state F),
  (inject_Z (Z.of_nat k) * poll_interval <= clock s - start)%Q ->
  (List.length (sent (snd (loop n start s)))
   <= List.length (sent s) + (60 - k))%nat.
Proof.
  induction n as [|n IH]; intros k start s Hk.
  - simpl. lia.
  - destruct (poll_loop_cases w docling_url task_id start s)
      as [[_ E] | [[Hin [o [_ E]]] | [Hin E]]]; rewrite E; cbn [snd].
    + lia.
    + assert (Hk60 : (Z.of_nat k < 60)%Z).
      { rewrite Zlt_Qlt. unfold poll_interval, max_wait in *.
        change (inject_Z 60) with 60%Q. lra. }
      unfold after_request. cbn [sent]. rewrite length_app.
      cbn [List.length]. lia.
    + assert (Hk60 : (Z.of_nat k < 60)%Z).
      { rewrite Zlt_Qlt. unfold poll_interval, max_wait in *.
        change (inject_Z 60) with 60%Q. lra. }
      specialize (IH (S k) start (poll_step w status_request s)).
      assert (Hstep : List.length (sent (poll_step w status_request s))
                      = S (List.length (sent s))).
      { unfold poll_step. cbn [sent]. rewrite length_app.
        cbn [List.length]. lia. }
      rewrite Hstep in IH.
      assert (Hk' : (inject_Z (Z.of_nat (S k)) * poll_interval
                     <= clock (poll_step w status_request s) - start)%Q).
      { unfold poll_step. cbn [clock].
        rewrite Nat2Z.inj_succ, <- Z.add_1_r, inject_Z_plus.
        destruct (world_realistic (List.length (sent s))),
                 (world_realistic (S (List.length (sent s)))).
        unfold poll_interval in *. change (inject_Z 1) with 1%Q. lra. }
      specialize (IH Hk'). lia.
Qed.

(** X2.  However long the conversion takes, the polling loop sends at most
    60 status requests: every pass sleeps five seconds or more, and the
    budget is 300 seconds. *)
Theorem at_most_60_status_requests (s : state F) :
  exists m : nat,
    (m <= 60)%nat
    /\ sent (snd (poll_for_completion w docling_url task_id s))
       = (sent s ++ repeat (GET (status_url docling_url task_id)) m)%list.
Proof.
  destruct (poll_loop_shape poll_allowance (clock s) s) as [m [Hsent _]].
  exists m. split; [|exact Hsent].
  pose proof (poll_loop_requests_bound poll_allowance 0 (clock s) s) as Hb.
  rewrite Hsent, length_app, repeat_length in Hb.
  assert (H0 : (inject_Z (Z.of_nat 0) * poll_interval <= clock s - clock s)%Q).
  { change (inject_Z (Z.of_nat 0)) with 0%Q. lra. }
  specialize (Hb H0). lia.
Qed.

(** With the first [k] polls inconclusive and poll [k + 1] within the
    budget, the loop comes to poll [k + 1]. *)
Lemma poll_loop_reaches (s : state F) (k : nat) :
  (forall j, (j < k)%nat ->
     inconclusive (answer w (List.length (sent s) + j)) = true) ->
  (waited w (List.length (sent s)) k < max_wait)%Q ->
  poll_for_completion w docling_url task_id s
  = loop (S (60 - k)) (clock s) (polled w status_request s k)
  /\ (clock (polled w status_request s k) - clock s < max_wait)%Q.
Proof.
  intros Hinc Hbudget.
  assert (Hk60 : (k < 60)%nat).
  { pose proof (waited_at_least w world_realistic k (List.length (sent s))) as Hk.
    apply Nat2Z.inj_lt. rewrite Zlt_Qlt.
    unfold poll_interval, max_wait in *.
    change (inject_Z (Z.of_nat 60)) with 60%Q. lra. }
  assert (Hin : forall j, (j <= k)%nat ->
            (clock (polled w status_request s j) - clock s < max_wait)%Q).
  { intros j Hj. rewrite polled_clock.
    pose proof (waited_monotone w world_realistic (List.length (sent s)) j k Hj).
    lra. }
  split; [|apply Hin; lia].
  change (poll_for_completion w docling_url task_id s)
    with (loop poll_allowance (clock s) s).
  replace poll_allowance with (k + S (60 - k))%nat
    by (unfold poll_allowance; lia).
  apply poll_loop_unroll; [exact Hinc|].
  intros j Hj. apply Hin. lia.
Qed.

(** X4.  A poll that cannot be read is not tried again: when, after [k]
    inconclusive polls and within the budget, the answer to poll [k + 1]
    is missing, is not JSON or is not a JSON object, the run ends with the
    error of that poll after [k + 1] status requests, and no result is
    requested. *)
Theorem failed_poll_ends_the_run (s : state F) (k : nat) (e : exn) :
  (forall j, (j < k)%nat ->
     inconclusive (answer w (List.length (sent s) + j)) = true) ->
  (waited w (List.length (sent s)) k < max_wait)%Q ->
  poll_error (answer w (List.length (sent s) + k)) = Some e ->
  fst (await_result w docling_url task_id s) = Raised e
  /\ sent (snd (await_result w docling_url task_id s))
     = (sent s ++ repeat (GET (status_url docling_url task_id)) (S k))%list.
Proof.
  intros Hinc Hbudget Herr.
  destruct (poll_loop_reaches s k Hinc Hbudget) as [Hreach Hin].
  unfold await_result, bind. rewrite Hreach.
  assert (Hlen : List.length (sent (polled w status_request s k))
                 = (List.length (sent s) + k)%nat).
  { rewrite polled_sent, length_app, repeat_length. reflexivity. }
  destruct (poll_loop_conclusive (60 - k) (clock s)
              (polled w status_request s k) Hin) as [o [E [_ Hraise]]].
  { rewrite Hlen. unfold inconclusive, poll_status.
    unfold poll_error in Herr.
    destruct (answer w (List.length (sent s) + k)) as [|resp]; [reflexivity|].
    destruct (json_body resp) as [[| | | | | |kv]|];
      try reflexivity; discriminate Herr. }
  rewrite Hlen in Hraise. rewrite E, (Hraise e Herr). cbn [fst snd].
  split; [reflexivity|].
  unfold after_request. cbn [sent]. rewrite polled_sent, repeat_snoc.
  rewrite <- app_assoc. reflexivity.
Qed.

(** The seconds [k] polls take when requests take no time and sleeps end
    on time. *)
Lemma waited_ideal (k : nat) :
  (forall j, latency w j == 0 /\ oversleep w j == 0)%Q ->
  forall base : nat,
  (waited w base k == inject_Z (Z.of_nat k) * poll_interval)%Q.
Proof.
  intros Hideal.
  induction k as [|k IH]; intros base.
  - cbn [waited]. change (inject_Z (Z.of_nat 0)) with 0%Q. ring.
  - rewrite waited_S, IH, Nat2Z.inj_succ, <- Z.add_1_r, inject_Z_plus.
    destruct (Hideal base) as [-> _]. destruct (Hideal (S base)) as [_ ->].
    change (inject_Z 1) with 1%Q. ring.
Qed.

(** X5.  When requests take no time and sleeps end on time, a conversion
    that never reports a final status is polled exactly 60 times; the run
    then ends with the timeout error, 300 seconds after the loop began, and
    no result is requested. *)
Theorem timeout_after_60_polls (s : state F) :
  (forall j, latency w j == 0 /\ oversleep w j == 0)%Q ->
  (forall j, (j < 60)%nat ->
     inconclusive (answer w (List.length (sent s) + j)) = true) ->
  fst (await_result w docling_url task_id s) = Raised conversion_timed_out
  /\ sent (snd (await_result w docling_url task_id s))
     = (sent s ++ repeat (GET (status_url docling_url task_id)) 60)%list
  /\ (clock (snd (await_result w docling_url task_id s)) == clock s + max_wait)%Q.
Proof.
  intros Hideal Hinc.
  assert (Hw : forall k, (clock (polled w status_request s k) - clock s
                          == inject_Z (Z.of_nat k) * poll_interval)%Q).
  { intros k. rewrite polled_clock, (waited_ideal k Hideal). ring. }
  assert (Hrun : poll_for_completion w docling_url task_id s
                 = (Raised conversion_timed_out, polled w status_request s 60)).
  { change (poll_for_completion w docling_url task_id s)
      with (loop (60 + 1) (clock s) s).
    rewrite poll_loop_unroll; [|exact Hinc|].
    - apply poll_loop_timed_out. rewrite Hw.
      unfold max_wait, poll_interval.
      change (inject_Z (Z.of_nat 60)) with 60%Q. lra.
    - intros j Hj. rewrite Hw.
      assert (Hj' : (inject_Z (Z.of_nat j) < inject_Z 60)%Q).
      { rewrite <- Zlt_Qlt. lia. }
      unfold max_wait, poll_interval.
      change (inject_Z 60) with 60%Q in Hj'. lra. }
  unfold await_result, bind. rewrite Hrun. cbn [fst snd].
  split; [reflexivity|]. split; [apply polled_sent|].
  specialize (Hw 60%nat). unfold max_wait, poll_interval in *.
  change (inject_Z (Z.of_nat 60)) with 60%Q in Hw. lra.
Qed.

End PollFurther.

(** The polling loop in example worlds. *)

Lemma at_most_60_status_requests_witness :
  exists m : nat,
    (m <= 60)%nat
    /\ sent (snd (poll_for_completion never_finishes "http://docling" (JStr "t1")
                    (initial_state 0%Q)))
       = repeat (GET "http://docling/v1/status/poll/t1") m.
Proof.
  assert (Hreal : realistic never_finishes).
  { intros k. split; discriminate. }
  exact (at_most_60_status_requests never_finishes "http://docling" (JStr "t1")
           Hreal (initial_state 0%Q)).
Defined.

Lemma failed_poll_ends_the_run_witness :
  fst (await_result second_poll_unreadable "http://docling" (JStr "t1")
         (initial_state 0%Q))
  = Raised JSONDecodeError
  /\ sent (snd (await_result second_poll_unreadable "http://docling" (JStr "t1")
                  (initial_state 0%Q)))
     = [GET "http://docling/v1/status/poll/t1";
        GET "http://docling/v1/status/poll/t1"].
Proof.
  assert (Hreal : realistic second_poll_unreadable).
  { intros k. split; discriminate. }
  assert (Hinc : forall j, (j < 1)%nat ->
            inconclusive
              (answer second_poll_unreadable
                 (List.length (sent (initial_state (F:=Empty_set) 0%Q)) + j))
            = true).
  { intros [|j] Hj; [reflexivity|lia]. }
  exact (failed_poll_ends_the_run second_poll_unreadable "http://docling"
           (JStr "t1") Hreal (initial_state 0%Q) 1 JSONDecodeError Hinc
           eq_refl eq_refl).
Defined.

Lemma timeout_after_60_polls_witness :
  fst (await_result never_finishes "http://docling" (JStr "t1")
         (initial_state 0%Q))
  = Raised conversion_timed_out
  /\ List.length
       (sent (snd (await_result never_finishes "http://docling" (JStr "t1")
                     (initial_state 0%Q))))
     = 60%nat.
Proof.
  assert (Hideal : forall j : nat,
            (latency never_finishes j == 0 /\ oversleep never_finishes j == 0)%Q).
  { intros j. split; reflexivity. }
  assert (Hinc : forall j, (j < 60)%nat ->
            inconclusive
              (answer never_finishes
                 (List.length (sent (initial_state (F:=Empty_set) 0%Q)) + j))
            = true).
  { intros j Hj. reflexivity. }
  destruct (timeout_after_60_polls never_finishes "http://docling" (JStr "t1")
              (initial_state 0%Q) Hideal Hinc) as [Hout [Hsent _]].
  split; [exact Hout|].
  rewrite Hsent. reflexivity.
Defined.

(** ** More on [convert_document] *)

Section ConvertFurther.

Context {F : Type} `{PyFloat F}.
Variable w : world F.

(** What [extract_and_write] returns is text, and the artifact holds it. *)
Lemma extract_and_write_returns (result v : json F) (s : state F) :
  fst (extract_and_write result s) = Returned v ->
  exists text : string,
    v = JStr text
    /\ extract_and_write result s
       = (Returned (JStr text),
          {| clock := clock s; sent := sent s; artifact := Some (JStr text) |}).
Proof.
  unfold extract_and_write, bind, lift.
  destruct (extract_markdown result) as [markdown|e|]; try discriminate.
  unfold write_markdown, bind, lift, open_w, file_write, ret, raise.
  destruct markdown; cbn; intros E; try discriminate.
  injection E as <-. eexists. split; reflexivity.
Qed.

(** X6.  Whenever [convert_document] returns, it returns text, and that
    text is what it wrote to its output artifact. *)
Theorem convert_document_returns_written_text
    (pdf_url docling_url : string) (s : state F) (v : json F) :
  fst (convert_document w pdf_url docling_url s) = Returned v ->
  exists text : string,
    v = JStr text
    /\ artifact (snd (convert_document w pdf_url docling_url s))
       = Some (JStr text).
Proof.
  unfold convert_document, bind.
  destruct (download_pdf w pdf_url s) as [[pdf_content|e|] s1];
    try discriminate.
  destruct (submit_conversion w docling_url pdf_content s1) as [[tid|e|] s2];
    try discriminate.
  destruct (await_result w docling_url tid s2) as [[result|e|] s3];
    try discriminate.
  intros E. destruct (extract_and_write_returns result v s3 E) as [text [-> E']].
  exists text. rewrite E'. split; reflexivity.
Qed.

(** X7.  When the download of the PDF fails, [convert_document] fails with
    the error of the download; the download is the only request it has
    sent: nothing is submitted to the conversion service. *)
Theorem failed_download_submits_nothing
    (pdf_url docling_url : string) (s : state F) (e : exn) :
  request_error (answer w (List.length (sent s))) = Some e ->
  convert_document w pdf_url docling_url s
  = (Raised e, after_request w s (GET pdf_url)).
Proof.
  intros He. unfold request_error in He.
  unfold convert_document, download_pdf, bind, httpx_request, raise_for_status,
    after_request, raise.
  destruct (answer w (List.length (sent s))) as [|resp].
  - injection He as <-. reflexivity.
  - destruct (is_success resp); [discriminate|].
    injection He as <-. reflexivity.
Qed.

(** X8.  When the conversion service accepts the document and its answer
    is a JSON object without [task_id], [convert_document] fails with a
    [KeyError] after the download and the submission: it never polls. *)
Theorem submission_without_task_id_is_not_polled
    (pdf_url docling_url : string) (s : state F)
    (pdf submitted : response F) (kv : list (string * json F)) :
  answer w (List.length (sent s)) = Response pdf ->
  is_success pdf = true ->
  answer w (S (List.length (sent s))) = Response submitted ->
  is_success submitted = true ->
  json_body submitted = Some (JObj kv) ->
  lookup "task_id" kv = None ->
  fst (convert_document w pdf_url docling_url s) = Raised KeyError
  /\ sent (snd (convert_document w pdf_url docling_url s))
     = (sent s ++
        [GET pdf_url;
         POST_files (docling_url ++ "/v1/convert/file/async") "document.pdf"
           (content pdf) [("from_formats", "pdf"); ("to_formats", "md")]])%list.
Proof.
  intros Hpdf Hok Hsub Hok' Hbody Hkey.
  unfold convert_document, download_pdf, submit_conversion, bind, httpx_request,
    raise_for_status, response_json, lift, ret.
  rewrite Hpdf, Hok. cbn [fst snd sent clock artifact].
  rewrite length_app. cbn [List.length]. rewrite Nat.add_1_r.
  rewrite Hsub, Hok'. cbn [fst snd]. rewrite Hbody. cbn [py_getitem].
  rewrite Hkey. cbn [fst snd sent]. split; [reflexivity|].
  rewrite <- app_assoc. reflexivity.
Qed.

(** X9.  A result payload in which [md], [markdown] and [content] are
    absent or false and [document] holds something that is not a mapping
    (a [null], a text, a list) is not normalized to the empty text: the
    extraction raises an [AttributeError], and nothing is written. *)
Theorem malformed_document_field_raises
    (kv : list (string * json F)) (document : json F) (s : state F) :
  falsy_or_absent "md" kv = true ->
  falsy_or_absent "markdown" kv = true ->
  falsy_or_absent "content" kv = true ->
  lookup "document" kv = Some document ->
  is_dict document = false ->
  extract_and_write (JObj kv) s = (Raised AttributeError, s).
Proof.
  unfold falsy_or_absent. intros Hmd Hmk Hct Hdoc Hnd.
  unfold extract_and_write, bind, lift, extract_markdown, dict_get, py_getitem,
    has_key, py_or.
  rewrite Hdoc.
  destruct (lookup "md" kv) as [md|];
    [apply negb_true_iff in Hmd | clear Hmd];
    (destruct (lookup "markdown" kv) as [mk|];
     [apply negb_true_iff in Hmk | clear Hmk]);
    (destruct (lookup "content" kv) as [ct|];
     [apply negb_true_iff in Hct | clear Hct]);
    cbn [obind truthy];
    repeat match goal with
    | E : truthy _ = false |- _ => rewrite E; cbn [truthy negb andb String.eqb]
    end;
    cbn [truthy negb andb String.eqb obind];
    destruct document; try discriminate Hnd; reflexivity.
Qed.

(** X10.  A true value under [md] is taken whatever it is and whatever the
    other fields hold.  When it is not text the component fails with a
    [TypeError], even if [markdown] or [content] hold text. *)
Theorem true_md_shadows_other_candidates
    (kv : list (string * json F)) (md : json F) (s : state F) :
  lookup "md" kv = Some md ->
  truthy md = true ->
  extract_markdown (JObj kv) = Returned md
  /\ (is_text md = false ->
      fst (extract_and_write (JObj kv) s) = Raised TypeError).
Proof.
  intros Hmd Htrue.
  assert (E : extract_markdown (JObj kv) = Returned md).
  { unfold extract_markdown, dict_get, py_or. rewrite Hmd.
    destruct (lookup "markdown" kv); destruct (lookup "content" kv);
      cbn [obind]; rewrite Htrue; cbn [negb andb]; rewrite ?Htrue;
      reflexivity. }
  split; [exact E|].
  intros Hnt. unfold extract_and_write, bind, lift. rewrite E.
  unfold write_markdown, bind, lift, open_w, file_write, raise.
  destruct md as [| | | | |l|kv']; cbn; try reflexivity; discriminate.
Qed.

End ConvertFurther.

Lemma convert_document_returns_written_text_witness :
  exists text : string,
    (JStr "hello" : json Empty_set) = JStr text
    /\ artifact (snd (convert_document conversion_succeeds "http://files/a.pdf"
                        "http://docling" (initial_state 0%Q)))
       = Some (JStr text).
Proof.
  exact (convert_document_returns_written_text conversion_succeeds
           "http://files/a.pdf" "http://docling" (initial_state 0%Q)
           (JStr "hello") eq_refl).
Defined.

Lemma failed_download_submits_nothing_witness :
  convert_document pdf_not_found "http://files/a.pdf" "http://docling"
    (initial_state 0%Q)
  = (Raised HTTPStatusError,
     {| clock := (0 + 1)%Q; sent := [GET "http://files/a.pdf"];
        artifact := None |}).
Proof.
  exact (failed_download_submits_nothing pdf_not_found "http://files/a.pdf"
           "http://docling" (initial_state 0%Q) HTTPStatusError eq_refl).
Defined.

Lemma submission_without_task_id_is_not_polled_witness :
  fst (convert_document no_task_id "http://files/a.pdf" "http://docling"
         (initial_state 0%Q))
  = Raised KeyError
  /\ List.length
       (sent (snd (convert_document no_task_id "http://files/a.pdf"
                     "http://docling" (initial_state 0%Q))))
     = 2%nat.
Proof.
  destruct (submission_without_task_id_is_not_polled no_task_id
              "http://files/a.pdf" "http://docling" (initial_state 0%Q)
              {| is_success := true; content := "%PDF-1.7"; json_body := None |}
              {| is_success := true; content := "";
                 json_body := Some (JObj [("status", JStr "queued")]) |}
              [("status", JStr "queued")]
              eq_refl eq_refl eq_refl eq_refl eq_refl eq_refl)
    as [Hout Hsent].
  split; [exact Hout|]. rewrite Hsent. reflexivity.
Defined.

(** The payload [{"document": null}]. *)
Lemma malformed_document_field_raises_witness :
  extract_and_write (JObj [("document", JNull)] : json Empty_set)
    (initial_state 0%Q)
  = (Raised AttributeError, initial_state 0%Q).
Proof.
  exact (malformed_document_field_raises [("document", JNull)] JNull
           (initial_state 0%Q) eq_refl eq_refl eq_refl eq_refl eq_refl).
Defined.

(** The payload [{"md": 5, "markdown": "text"}]. *)
Lemma true_md_shadows_other_candidates_witness :
  extract_markdown
    (JObj [("md", JInt 5); ("markdown", JStr "text")] : json Empty_set)
  = Returned (JInt 5)
  /\ fst (extract_and_write
            (JObj [("md", JInt 5); ("markdown", JStr "text")] : json Empty_set)
            (initial_state 0%Q))
     = Raised TypeError.
Proof.
  destruct (true_md_shadows_other_candidates
              ([("md", JInt 5); ("markdown", JStr "text")]
               : list (string * json Empty_set))
              (JInt 5) (initial_state 0%Q) eq_refl eq_refl) as [E Hraise].
  split; [exact E | exact (Hraise eq_refl)].
Defined.

(** ** More on [generate_plan] and [chunk_text] *)

(** X11.  Cutting a text to the sample length twice is cutting it once. *)
Theorem sample_of_idempotent (text : string) :
  sample_of (sample_of text) = sample_of text.
Proof.
  destruct (sample_of_spec text) as [Hle _].
  destruct (sample_of_spec (sample_of text)) as [_ [_ Hsame]].
  apply Hsame, Hle.
Qed.

Section PlanChunkFurther.

Context {F : Type} `{PyFloat F}.
Variable w : world F.

(** X12.  [generate_plan] returns only when the plan service answered its
    one request with a success whose body is a JSON object; what it returns
    is the [plan] of that object as it is, or the empty mapping when the
    object has none. *)
Theorem generate_plan_returns_plan_field
    (markdown_text plan_url file_name : string) (s : state F) (plan : json F) :
  fst (generate_plan w markdown_text plan_url file_name s) = Returned plan ->
  exists (resp : response F) (kv : list (string * json F)),
    answer w (List.length (sent s)) = Response resp
    /\ is_success resp = true
    /\ json_body resp = Some (JObj kv)
    /\ plan = match lookup "plan" kv with
              | Some p => p
              | None => JObj []
              end.
Proof.
  unfold generate_plan, bind, httpx_request, raise_for_status, response_json,
    lift, ret, raise.
  destruct (answer w (List.length (sent s))) as [|resp]; [discriminate|].
  destruct (is_success resp) eqn:Hok; [|discriminate]. cbn [fst snd].
  destruct (json_body resp) as [[| | | | | |kv]|] eqn:Hbody;
    cbn [dict_get fst snd]; try discriminate.
  intros E. exists resp, kv.
  split; [first [reflexivity | assumption]|].
  split; [first [reflexivity | assumption]|].
  split; [first [reflexivity | assumption]|].
  destruct (lookup "plan" kv); cbn in E;
    destruct (lookup "model" kv); cbn in E;
    destruct (lookup "latency_ms" kv); cbn in E; congruence.
Qed.

(** What [chunk_text] returns is the length of the chunker's answer, which
    it has written to its artifact. *)
Lemma chunk_text_returns (markdown_text : string) (plan : json F)
    (chunker_url file_name : string) (s : state F) (n : nat) :
  fst (chunk_text w markdown_text plan chunker_url file_name s) = Returned n ->
  exists chunks : json F,
    py_len chunks = Returned n
    /\ artifact (snd (chunk_text w markdown_text plan chunker_url file_name s))
       = Some chunks.
Proof.
  unfold chunk_text, bind, httpx_request, raise_for_status, response_json,
    lift, ret, raise, open_w, json_dump.
  destruct (answer w (List.length (sent s))) as [|resp]; [discriminate|].
  destruct (is_success resp); [|discriminate]. cbn [fst snd].
  destruct (json_body resp) as [chunks|]; [|discriminate]. cbn [fst snd].
  destruct (py_len chunks) as [m| |] eqn:Hlen; try discriminate.
  cbn. intros E. injection E as <-. exists chunks. split; [exact Hlen|reflexivity].
Qed.

End PlanChunkFurther.

(** ** More on [embed_and_store] *)

Section StoreFurther.

Context {F : Type} `{PyFloat F}.
Variable w : world F.

(** A chunk that is an object makes a document, whatever keys it has. *)
Lemma document_of_object (kv : list (string * json F)) :
  exists document : json F, document_of (JObj kv) = Returned document.
Proof.
  unfold document_of, dict_get.
  destruct (lookup "chunk_id" kv), (lookup "text" kv), (lookup "file_name" kv),
    (lookup "chunk_index" kv), (lookup "created_at" kv);
    cbn [obind]; eexists; reflexivity.
Qed.

(** Chunks that are objects make documents; a chunk that is not makes the
    preparation raise. *)
Lemma prepare_documents_objects (chunks : list (json F)) :
  (forallb is_dict chunks = true ->
   exists documents, prepare_documents chunks = Returned documents)
  /\ (forallb is_dict chunks = false ->
      prepare_documents chunks = Raised AttributeError).
Proof.
  induction chunks as [|chunk rest [IHok IHbad]]; cbn [forallb prepare_documents].
  - split; [eexists; reflexivity|discriminate].
  - destruct chunk as [| | | | | |kv]; cbn [is_dict andb];
      try (split; [discriminate|reflexivity]).
    destruct (document_of_object kv) as [document ->]. cbn [obind].
    split.
    + intros Hall. destruct (IHok Hall) as [documents ->].
      eexists. reflexivity.
    + intros Hbad. rewrite (IHbad Hbad). reflexivity.
Qed.

(** X14.  When one of the chunks is not an object, [embed_and_store] fails
    with an [AttributeError] before it sends anything: no chunk is stored,
    not even those before the malformed one. *)
Theorem malformed_chunk_stores_nothing (chunks : list (json F))
    (gateway_url collection : string) (s : state F) :
  forallb is_dict chunks = false ->
  embed_and_store w (JList chunks) gateway_url collection s
  = (Raised AttributeError, s).
Proof.
  intros Hbad. unfold embed_and_store, bind, lift. cbn [py_len py_iter].
  rewrite (proj2 (prepare_documents_objects chunks) Hbad). reflexivity.
Qed.

(** The requests [embed_and_store] has sent when it returns: as many as 50
    goes into the length of the chunks, rounded up. *)
Lemma embed_and_store_request_count (chunks : json F)
    (gateway_url collection : string) (s : state F) (total : json F) (n : nat) :
  py_len chunks = Returned n ->
  fst (embed_and_store w chunks gateway_url collection s) = Returned total ->
  List.length (sent (snd (embed_and_store w chunks gateway_url collection s)))
  = (List.length (sent s) + ceil_div n 50)%nat.
Proof.
  intros Hlen Hret.
  assert (Hempty : forall items : list (json F),
            fst (embed_and_store w chunks gateway_url collection s)
            = Returned total ->
            py_iter chunks = Returned items ->
            (forall x, In x items -> is_dict x = false) ->
            List.length items = n ->
            List.length
              (sent (snd (embed_and_store w chunks gateway_url collection s)))
            = (List.length (sent s) + ceil_div n 50)%nat).
  { intros items.
    unfold embed_and_store, bind, lift. rewrite Hlen. cbn [fst snd].
    intros E Hiter Hnd Hn. rewrite Hiter in E |- *. cbn [fst snd] in E |- *.
    destruct items as [|x items].
    - cbn in E |- *. subst n. cbn. lia.
    - exfalso. cbn [prepare_documents] in E.
      assert (Hx : is_dict x = false) by (apply Hnd; left; reflexivity).
      destruct x; try discriminate Hx; cbn in E; discriminate E. }
  destruct chunks as [| | | |text|l|kv]; try discriminate Hlen.
  - (* a text *)
    apply (Hempty _ Hret eq_refl).
    + intros x Hx. apply in_map_iff in Hx. destruct Hx as [c [<- _]]. reflexivity.
    + cbn [py_len] in Hlen. injection Hlen as <-.
      rewrite length_map. clear. induction text; simpl; congruence.
  - (* a list *)
    cbn [py_len] in Hlen. injection Hlen as <-.
    destruct (embed_and_store_batches_of_50 w l gateway_url collection s total Hret)
      as [documents [_ [Hdocs Hsent]]].
    rewrite Hsent, length_app, length_map, batches_length, Hdocs. reflexivity.
  - (* a mapping *)
    apply (Hempty _ Hret eq_refl).
    + intros x Hx. apply in_map_iff in Hx. destruct Hx as [c [<- _]]. reflexivity.
    + cbn [py_len] in Hlen. injection Hlen as <-. apply length_map.
Qed.

End StoreFurther.

(** X13.  The count [chunk_text] returns and the artifact it writes agree
    with what [embed_and_store] does next: when [chunk_text] returns [n],
    an [embed_and_store] that reads the artifact and returns has sent
    [ceil (n / 50)] upsert requests. *)
Theorem chunk_count_gives_upsert_requests {F : Type} `{PyFloat F}
    (w1 w2 : world F) (markdown_text : string) (plan : json F)
    (chunker_url file_name gateway_url collection : string)
    (s1 s2 : state F) (n : nat) :
  fst (chunk_text w1 markdown_text plan chunker_url file_name s1) = Returned n ->
  exists chunks : json F,
    artifact (snd (chunk_text w1 markdown_text plan chunker_url file_name s1))
    = Some chunks
    /\ forall total : json F,
       fst (embed_and_store w2 chunks gateway_url collection s2) = Returned total ->
       List.length
         (sent (snd (embed_and_store w2 chunks gateway_url collection s2)))
       = (List.length (sent s2) + ceil_div n 50)%nat.
Proof.
  intros Hret.
  destruct (chunk_text_returns w1 markdown_text plan chunker_url file_name s1 n Hret)
    as [chunks [Hlen Hart]].
  exists chunks. split; [exact Hart|].
  intros total Hstore.
  exact (embed_and_store_request_count w2 chunks gateway_url collection s2 total n
           Hlen Hstore).
Qed.

Section TotalFurther.

Context {F : Type} `{PyFloat F}.
Variable w : world F.
Variable size : nat.
Variable documents : list (json F).
Variables gateway_url collection : string.

Local Notation loop :=
  (upsert_loop w size documents gateway_url collection).

(** An acknowledged request adds its count. *)
Lemma upsert_loop_counted (i : nat) (rest : list nat) (a : Z) (s : state F) :
  acknowledged (answer w (List.length (sent s))) = true ->
  loop (i :: rest) (JInt a) s
  = loop rest
      (JInt (a + reported_count (answer w (List.length (sent s)))
                   (List.length (slice documents i (i + size)))))
      (after_request w s
         (upsert_request gateway_url collection (slice documents i (i + size)))).
Proof.
  intros Hack. unfold acknowledged, reported_count in *. cbn [upsert_loop].
  unfold bind, httpx_request, raise_for_status, response_json, lift, ret,
    after_request, dict_get.
  destruct (answer w (List.length (sent s))) as [|resp]; [discriminate|].
  destruct (is_success resp); [|discriminate].
  destruct (json_body resp) as [[| | | | | |kv]|]; try discriminate.
  cbn [andb] in Hack.
  destruct (lookup "inserted" kv) as [[| |z| | | |]|]; try discriminate;
    reflexivity.
Qed.

Lemma upsert_loop_total (starts : list nat) :
  forall (a : Z) (s : state F),
  (forall j, (j < List.length starts)%nat ->
     acknowledged (answer w (List.length (sent s) + j)) = true) ->
  fst (loop starts (JInt a) s)
  = Returned
      (JInt (a + total_count w (List.length (sent s))
                   (map (fun i => slice documents i (i + size)) starts))).
Proof.
  induction starts as [|i rest IH]; intros a s Hack.
  - cbn. rewrite Z.add_0_r. reflexivity.
  - rewrite upsert_loop_counted.
    2:{ rewrite <- (Nat.add_0_r (List.length (sent s))). apply Hack. simpl. lia. }
    rewrite IH.
    + unfold after_request. cbn [sent map total_count].
      rewrite length_app. cbn [List.length]. rewrite Nat.add_1_r.
      rewrite Z.add_assoc. reflexivity.
    + intros j Hj. unfold after_request. cbn [sent].
      rewrite length_app. cbn [List.length].
      replace (List.length (sent s) + 1 + j)%nat
        with (List.length (sent s) + S j)%nat by lia.
      apply Hack. simpl. lia.
Qed.

(** Batches acknowledged without a count add up to their sizes. *)
Lemma total_count_without_counts (batches : list (list (json F))) :
  forall base : nat,
  (forall j, (j < List.length batches)%nat ->
     acknowledged_without_count (answer w (base + j)) = true) ->
  total_count w base batches = Z.of_nat (List.length (List.concat batches)).
Proof.
  induction batches as [|batch rest IH]; intros base Hack; [reflexivity|].
  cbn [total_count List.concat]. rewrite length_app, Nat2Z.inj_add.
  rewrite IH.
  - f_equal.
    assert (H0 := Hack 0%nat ltac:(simpl; lia)). rewrite Nat.add_0_r in H0.
    unfold acknowledged_without_count, reported_count in *.
    destruct (answer w base) as [|resp]; [reflexivity|].
    destruct (json_body resp) as [[| | | | | |kv]|]; try reflexivity.
    destruct (lookup "inserted" kv); [|reflexivity].
    destruct (is_success resp); discriminate H0.
  - intros j Hj.
    replace (S base + j)%nat with (base + S j)%nat by lia.
    apply Hack. simpl. lia.
Qed.

Hypothesis size_positive : (0 < size)%nat.

(** X15.  When the gateway acknowledges every batch, the upsert returns
    the sum, over the batches, of the [inserted] the gateway reported, with
    the size of the batch in place of a count that is missing.  When no
    answer carries a count, the total is the number of documents. *)
Theorem upsert_total_adds_reported_counts (s : state F) :
  (forall j, (j < ceil_div (List.length documents) size)%nat ->
     acknowledged (answer w (List.length (sent s) + j)) = true) ->
  fst (upsert_all w size documents gateway_url collection s)
  = Returned (JInt (total_count w (List.length (sent s))
                      (batches size documents)))
  /\ ((forall j, (j < ceil_div (List.length documents) size)%nat ->
         acknowledged_without_count (answer w (List.length (sent s) + j)) = true) ->
      fst (upsert_all w size documents gateway_url collection s)
      = Returned (JInt (Z.of_nat (List.length documents)))).
Proof.
  intros Hack.
  assert (E : fst (upsert_all w size documents gateway_url collection s)
              = Returned (JInt (total_count w (List.length (sent s))
                                  (batches size documents)))).
  { unfold upsert_all, bind, lift. rewrite (py_range_spec _ _ size_positive).
    rewrite upsert_loop_total.
    - rewrite Z.add_0_l. do 2 f_equal.
      unfold batches. rewrite map_map. f_equal. apply map_ext.
      intros q. apply slice_batch.
    - intros j Hj. apply Hack. rewrite length_map, length_seq in Hj. exact Hj. }
  split; [exact E|].
  intros Hnone. rewrite E. do 2 f_equal.
  rewrite total_count_without_counts.
  - rewrite (batches_concat size size_positive). reflexivity.
  - intros j Hj. apply Hnone.
    rewrite (batches_length size) in Hj. exact Hj.
Qed.

End TotalFurther.

(** ** More on [test_query] *)

Lemma substring_0_all (n : nat) (s : string) :
  (String.length s <= n)%nat -> substring 0 n s = s.
Proof.
  revert s; induction n as [|n IH]; intros [|c s] Hlen; simpl in *;
    try reflexivity; try lia.
  f_equal. apply IH. lia.
Qed.

Section QueryFurther.

Context {F : Type} `{PyFloat F}.
Variable w : world F.

(** X16.  Whatever the gateway answers and however the run ends,
    [test_query] sends one search request, with the query, the collection
    and [top_k] as they were given: it does not try again. *)
Theorem test_query_sends_one_request
    (gateway_url collection query : string) (top_k : Z) (s : state F) :
  sent (snd (test_query w gateway_url collection query top_k s))
  = (sent s ++
     [POST_json (gateway_url ++ "/search")
        (JObj [("query", JStr query);
               ("collection", JStr collection);
               ("top_k", JInt top_k)])])%list.
Proof.
  unfold test_query, bind, httpx_request, raise_for_status, response_json,
    lift, ret, raise, search_request.
  destruct (answer w (List.length (sent s))) as [|resp]; [reflexivity|].
  destruct (is_success resp); [|reflexivity]. cbn [fst snd].
  destruct (json_body resp) as [result|]; [|reflexivity]. cbn [fst snd].
  destruct (query_output_lines result query); reflexivity.
Qed.

(** X17.  When the answer to the search is a JSON object without [hits],
    or with an empty list of hits, [test_query] does not fail: it returns
    the report of zero results, which is the header alone. *)
Theorem no_hits_gives_empty_report
    (gateway_url collection query : string) (top_k : Z) (s : state F)
    (resp : response F) (kv : list (string * json F)) :
  answer w (List.length (sent s)) = Response resp ->
  is_success resp = true ->
  json_body resp = Some (JObj kv) ->
  lookup "hits" kv = None \/ lookup "hits" kv = Some (JList []) ->
  fst (test_query w gateway_url collection query top_k s)
  = Returned ("Query: " ++ query ++ newline ++ "Results: 0" ++ newline).
Proof.
  intros Hans Hok Hbody Hhits.
  unfold test_query, bind, httpx_request, raise_for_status, response_json,
    lift, ret, query_output_lines, dict_get.
  rewrite Hans, Hok. cbn [fst snd]. rewrite Hbody. cbn [fst snd].
  destruct Hhits as [-> | ->]; reflexivity.
Qed.

(** X18.  The second line of a hit's entry quotes at most the first 200
    characters of the hit's text, between three spaces and three dots; the
    dots are there also when nothing was cut. *)
Theorem snippet_is_at_most_200_characters
    (i : nat) (kv : list (string * json F)) (text : string)
    (lines : list string) :
  lookup "text" kv = Some (JStr text) ->
  hit_lines i (JObj kv) = Returned lines ->
  exists snippet rest : string,
    nth_error lines 1 = Some ("   " ++ snippet ++ "...")
    /\ (String.length snippet <= 200)%nat
    /\ text = snippet ++ rest
    /\ ((String.length text <= 200)%nat -> snippet = text).
Proof.
  intros Htext. unfold hit_lines, dict_get. rewrite Htext.
  destruct (substring_0_prefix 200 text) as [rest Hrest].
  assert (Hlen : (String.length (substring 0 200 text) <= 200)%nat)
    by (rewrite substring_0_length; lia).
  destruct (lookup "score" kv) as [score|]; cbn [obind py_slice_to];
    destruct (format_4f _) as [score_text|e|]; cbn [obind]; try discriminate;
    intros E; injection E as <-;
    exists (substring 0 200 text), rest;
    (split; [reflexivity|]); (split; [exact Hlen|]); (split; [exact Hrest|]);
    apply substring_0_all.
Qed.

End QueryFurther.

(** The components in example worlds. *)

Lemma generate_plan_returns_plan_field_witness :
  exists (resp : response Empty_set) (kv : list (string * json Empty_set)),
    answer plan_service_answers 0 = Response resp
    /\ is_success resp = true
    /\ json_body resp = Some (JObj kv)
    /\ JObj [("strategy", JStr "by_heading")]
       = match lookup "plan" kv with
         | Some p => p
         | None => JObj []
         end.
Proof.
  exact (generate_plan_returns_plan_field plan_service_answers "# Title"
           "http://plan" "document.pdf" (initial_state 0%Q)
           (JObj [("strategy", JStr "by_heading")]) eq_refl).
Defined.

(** Three chunks: one upsert request. *)
Lemma chunk_count_gives_upsert_requests_witness :
  exists chunks : json Empty_set,
    artifact (snd (chunk_text chunker_answers "# Title" (JObj []) "http://chunker"
                     "document.pdf" (initial_state 0%Q)))
    = Some chunks
    /\ List.length
         (sent (snd (embed_and_store gateway_without_counts chunks
                       "http://gateway" "docs" (initial_state 0%Q))))
       = 1%nat.
Proof.
  destruct (chunk_count_gives_upsert_requests chunker_answers
              gateway_without_counts "# Title" (JObj []) "http://chunker"
              "document.pdf" "http://gateway" "docs" (initial_state 0%Q)
              (initial_state 0%Q) 3 eq_refl) as [chunks [Hart Hcount]].
  exists chunks. split; [exact Hart|].
  assert (E : Some chunks = Some (JList three_chunks)).
  { rewrite <- Hart. reflexivity. }
  injection E as ->.
  exact (Hcount (JInt 3) eq_refl).
Defined.

(** A text among the chunks. *)
Lemma malformed_chunk_stores_nothing_witness :
  embed_and_store gateway_without_counts
    (JList [JObj [("chunk_id", JInt 0)]; JStr "stray"])
    "http://gateway" "docs" (initial_state 0%Q)
  = (Raised AttributeError, initial_state 0%Q).
Proof.
  exact (malformed_chunk_stores_nothing gateway_without_counts
           [JObj [("chunk_id", JInt 0)]; JStr "stray"]
           "http://gateway" "docs" (initial_state 0%Q) eq_refl).
Defined.

(** Four documents in batches of three, acknowledged without counts: the
    total is four. *)
Lemma upsert_total_adds_reported_counts_witness :
  fst (upsert_all gateway_without_counts 3 four_documents "http://gateway" "docs"
         (initial_state 0%Q))
  = Returned (JInt 4).
Proof.
  assert (Hack : forall j, (j < ceil_div (List.length four_documents) 3)%nat ->
            acknowledged
              (answer gateway_without_counts
                 (List.length (sent (initial_state (F:=Empty_set) 0%Q)) + j))
            = true).
  { intros j _. reflexivity. }
  assert (Hnone : forall j, (j < ceil_div (List.length four_documents) 3)%nat ->
            acknowledged_without_count
              (answer gateway_without_counts
                 (List.length (sent (initial_state (F:=Empty_set) 0%Q)) + j))
            = true).
  { intros j _. reflexivity. }
  exact (proj2 (upsert_total_adds_reported_counts gateway_without_counts 3
                  four_documents "http://gateway" "docs" ltac:(lia)
                  (initial_state 0%Q) Hack) Hnone).
Defined.

Lemma no_hits_gives_empty_report_witness :
  fst (test_query no_hits_world "http://gateway" "docs" "anything" 5
         (initial_state 0%Q))
  = Returned ("Query: anything" ++ newline ++ "Results: 0" ++ newline).
Proof.
  exact (no_hits_gives_empty_report no_hits_world "http://gateway" "docs"
           "anything" 5 (initial_state 0%Q)
           {| is_success := true; content := "";
              json_body := Some (JObj [("hits", JList [])]) |}
           [("hits", JList [])] eq_refl eq_refl eq_refl (or_intror eq_refl)).
Defined.

Lemma snippet_is_at_most_200_characters_witness :
  exists snippet rest : string,
    nth_error ["1. [Score: 1.0000]"; "   alpha..."; ""] 1
    = Some ("   " ++ snippet ++ "...")
    /\ (String.length snippet <= 200)%nat
    /\ "alpha" = snippet ++ rest
    /\ ((String.length "alpha" <= 200)%nat -> snippet = "alpha").
Proof.
  exact (snippet_is_at_most_200_characters (F:=Empty_set) 0
           [("score", JInt 1); ("text", JStr "alpha")] "alpha"
           ["1. [Score: 1.0000]"; "   alpha..."; ""] eq_refl eq_refl).
Defined.
